(** * Modbus to OPC UA bridge: register codec, device registry and poll cycle

    A shallow embedding of the multi-device server (the file with
    [devices], [modbusClients], [opcuaVariables], the three [/api] routes,
    [connectToDevice], [readDeviceData], [getRegisterCount] and
    [convertModbusData]) and the properties of its specification that
    were checked against it. *)

From stdpp Require Import gmap strings list.
From Stdlib Require Import ZArith Lia.

(** ** JavaScript values met by the bridge *)

(** The values a tag's [currentValue] can hold.  Numbers that the code
    computes with integer operations are kept as integers; the result of
    [Buffer.readFloatBE] is kept by the 32-bit pattern it was read from. *)
Inductive JsValue : Type :=
| JUndefined
| JBool (b : bool)
| JNum (n : Z)
| JNaN
| JFloat (bits : Z).

(** An element of the [data] array of a modbus-serial reply: a 16-bit word
    for register reads, a boolean for coil and discrete-input reads. *)
Inductive RawItem : Type :=
| Word (w : Z)
| Bit (b : bool).

(** A JavaScript completion: a value, or a thrown exception. *)
Inductive Completion (A : Type) : Type :=
| Normal (a : A)
| Thrown (err : string).
Arguments Normal {A} a.
Arguments Thrown {A} err.

Module Js.
Local Open Scope Z_scope.

(** [ToNumber] on an array element; [None] is NaN ([data[i]] undefined). *)
Definition toNumber (x : option RawItem) : option Z :=
  match x with
  | Some (Word w) => Some w
  | Some (Bit true) => Some 1
  | Some (Bit false) => Some 0
  | None => None
  end.

(** The element as a value of its own. *)
Definition valueOf (x : option RawItem) : JsValue :=
  match x with
  | Some (Word w) => JNum w
  | Some (Bit b) => JBool b
  | None => JUndefined
  end.

(** [ToInt32]: wrap-around into the signed 32-bit range; NaN gives 0. *)
Definition wrap32 (n : Z) : Z := (n + 2 ^ 31) mod 2 ^ 32 - 2 ^ 31.

Definition toInt32 (x : option Z) : Z :=
  match x with
  | Some n => wrap32 n
  | None => 0
  end.

(** [x << k] for a constant [k] below 32. *)
Definition shl (x : option RawItem) (k : Z) : Z :=
  wrap32 (Z.shiftl (toInt32 (toNumber x)) k).

(** [a + y] with [a] a number. *)
Definition add (a : Z) (y : option RawItem) : JsValue :=
  match toNumber y with
  | Some n => JNum (a + n)
  | None => JNaN
  end.

(** [x > k]; a comparison with NaN is false. *)
Definition gt (x : option RawItem) (k : Z) : bool :=
  match toNumber x with
  | Some n => k <? n
  | None => false
  end.

(** [x - k]. *)
Definition sub (x : option RawItem) (k : Z) : JsValue :=
  match toNumber x with
  | Some n => JNum (n - k)
  | None => JNaN
  end.

(** [Boolean(x)] on an array element. *)
Definition toBoolean (x : option RawItem) : bool :=
  match x with
  | Some (Word w) => negb (w =? 0)
  | Some (Bit b) => b
  | None => false
  end.

(** Zero and NaN among single-precision bit patterns. *)
Definition floatIsZero (bits : Z) : bool := Z.land bits 0x7fffffff =? 0.
Definition floatIsNaN (bits : Z) : bool :=
  (Z.land (Z.shiftr bits 23) 0xff =? 0xff) && negb (Z.land bits 0x7fffff =? 0).

(** Truthiness of a value, as [||] tests it. *)
Definition truthy (v : JsValue) : bool :=
  match v with
  | JUndefined => false
  | JBool b => b
  | JNum n => negb (n =? 0)
  | JNaN => false
  | JFloat bits => negb (floatIsZero bits || floatIsNaN bits)
  end.

(** [v || d]. *)
Definition orElse (v d : JsValue) : JsValue := if truthy v then v else d.

(** [x || d] on an optional numeric field: absent and 0 are falsy. *)
Definition orZ (x : option Z) (d : Z) : Z :=
  match x with
  | Some n => if n =? 0 then d else n
  | None => d
  end.

(** Truthiness of an optional string field: absent and empty are falsy. *)
Definition truthyStr (x : option string) : bool :=
  match x with
  | Some s => negb (String.eqb s "")
  | None => false
  end.
End Js.

(** ** Node's Buffer, as far as the codec uses it *)

Module Buffer.
Local Open Scope Z_scope.

Definition t : Type := list Z.

Definition alloc (n : nat) : t := replicate n 0.

(** [buf.writeUInt16BE(value, offset)]: [value = +value], a range check
    that NaN passes, then the two bytes. *)
Definition writeUInt16BE (buf : t) (value : option RawItem) (offset : nat)
  : Completion t :=
  match Js.toNumber value with
  | Some n =>
      if (65535 <? n) || (n <? 0) then Thrown "ERR_OUT_OF_RANGE"
      else Normal (<[S offset := Z.land n 0xff]>
                     (<[offset := Z.land (Z.shiftr n 8) 0xff]> buf))
  | None => Normal (<[S offset := 0]> (<[offset := 0]> buf))
  end.

(** The 32-bit big-endian pattern at [offset]. *)
Definition readUInt32BE (buf : t) (offset : nat) : Z :=
  default 0 (buf !! offset) * 2 ^ 24
  + default 0 (buf !! S offset) * 2 ^ 16
  + default 0 (buf !! S (S offset)) * 2 ^ 8
  + default 0 (buf !! S (S (S offset))).

(** [buf.readFloatBE(offset)]. *)
Definition readFloatBE (buf : t) (offset : nat) : JsValue :=
  JFloat (readUInt32BE buf offset).
End Buffer.

(** ** Register codec *)

Definition getRegisterCount (dataType : string) : Z :=
  if String.eqb dataType "float" then 2%Z
  else if String.eqb dataType "int32" then 2%Z
  else if String.eqb dataType "uint32" then 2%Z
  else 1%Z.

Definition convertModbusData (data : list RawItem) (dataType : string)
  : Completion JsValue :=
  if String.eqb dataType "float" then
    match Buffer.writeUInt16BE (Buffer.alloc 4) (data !! 0%nat) 0 with
    | Thrown e => Thrown e
    | Normal buffer =>
        match Buffer.writeUInt16BE buffer (data !! 1%nat) 2 with
        | Thrown e => Thrown e
        | Normal buffer' => Normal (Buffer.readFloatBE buffer' 0)
        end
    end
  else if String.eqb dataType "int32" then
    Normal (Js.add (Js.shl (data !! 0%nat) 16) (data !! 1%nat))
  else if String.eqb dataType "uint32" then
    Normal (Js.add (Js.shl (data !! 0%nat) 16) (data !! 1%nat))
  else if String.eqb dataType "int16" then
    Normal (if Js.gt (data !! 0%nat) 32767
            then Js.sub (data !! 0%nat) 65536
            else Js.valueOf (data !! 0%nat))
  else if String.eqb dataType "uint16" then
    Normal (Js.valueOf (data !! 0%nat))
  else if String.eqb dataType "boolean" then
    Normal (JBool (Js.toBoolean (data !! 0%nat)))
  else
    Normal (Js.valueOf (data !! 0%nat)).

(** ** Data model *)

Module Tag.
Record t : Type := mk {
  name : string;
  registerType : string;
  address : Z;
  dataType : string;
  currentValue : JsValue
}.

(** [tag.currentValue = value] *)
Definition setCurrentValue (tag : t) (value : JsValue) : t :=
  {| name := name tag; registerType := registerType tag;
     address := address tag; dataType := dataType tag;
     currentValue := value |}.
End Tag.

Module Device.
Record t : Type := mk {
  id : string;
  name : string;
  type : string;
  address : string;
  port : option Z;
  baudRate : option Z;
  deviceId : option Z;
  pollInterval : option Z;
  connected : bool;
  tags : list Tag.t
}.

(** [device.connected = b] *)
Definition setConnected (d : t) (b : bool) : t :=
  {| id := id d; name := name d; type := type d; address := address d;
     port := port d; baudRate := baudRate d; deviceId := deviceId d;
     pollInterval := pollInterval d; connected := b; tags := tags d |}.

(** The tag objects of the device after a pass of the poll loop. *)
Definition setTags (d : t) (ts : list Tag.t) : t :=
  {| id := id d; name := name d; type := type d; address := address d;
     port := port d; baudRate := baudRate d; deviceId := deviceId d;
     pollInterval := pollInterval d; connected := connected d; tags := ts |}.
End Device.

(** The JSON body of [POST /api/devices].  A field that is absent is
    [None]; [tags] is [None] when absent or not an array. *)
Module Body.
Record t : Type := mk {
  id : option string;
  name : option string;
  type : option string;
  address : string;
  port : option Z;
  baudRate : option Z;
  deviceId : option Z;
  pollInterval : option Z;
  tags : option (list Tag.t)
}.
End Body.

(** ** The collaborators: modbus-serial and node-opcua *)

Inductive ReadKind : Type :=
| HoldingRegisters | InputRegisters | Coils | DiscreteInputs.

(** What a read promise settles to.  [Resolved None] is a reply that is
    falsy or has no [data] field. *)
Inductive ReadReply : Type :=
| Rejected (err : string)
| Resolved (data : option (list RawItem)).

Inductive OpcuaDataType : Type :=
| Float | Int32 | UInt32 | Int16 | UInt16 | Boolean.

(** The behaviour of the libraries, which the bridge does not control: a
    Modbus client is a state machine, a connect promise resolves ([true])
    or rejects, and building a Variant for a value may throw. *)
Class Collaborators : Type := {
  Client : Type;
  newClient : Client;
  connectTCP : Client -> string -> Z -> bool * Client;
  connectRTUBuffered : Client -> string -> Z -> bool * Client;
  setID : Client -> Z -> Client;
  readHoldingRegisters : Client -> Z -> Z -> ReadReply * Client;
  readInputRegisters : Client -> Z -> Z -> ReadReply * Client;
  readCoils : Client -> Z -> Z -> ReadReply * Client;
  readDiscreteInputs : Client -> Z -> Z -> ReadReply * Client;
  close : Client -> Client;
  variantThrows : OpcuaDataType -> JsValue -> bool
}.

(** What the bridge does to its collaborators and to its tags, in order. *)
Inductive Event : Type :=
| EConnectTCP (id host : string) (port : Z)
| EConnectRTU (id path : string) (baudRate : Z)
| ESetID (id : string) (unit : Z)
| ERead (id : string) (kind : ReadKind) (address length : Z)
| EClose (id : string)
| ETagValue (id tag : string) (value : JsValue)
| ESetValueFromSource (id nodeId : string) (value : JsValue)
| EDispose (nodeId : string)
| ERemoveDeviceVariables (id : string)
| EAddVariable (nodeId : string)
| ESetInterval (id : string) (ms : Z).

Definition getOPCUADataTypeCode (dataType : string) : OpcuaDataType :=
  if String.eqb dataType "float" then Float
  else if String.eqb dataType "int32" then Int32
  else if String.eqb dataType "uint32" then UInt32
  else if String.eqb dataType "int16" then Int16
  else if String.eqb dataType "uint16" then UInt16
  else if String.eqb dataType "boolean" then Boolean
  else UInt16.

(** A JavaScript [Map] with string keys, in insertion order. *)
Module JsMap.
Definition t (V : Type) : Type := list (string * V).

Fixpoint get {V} (m : t V) (k : string) : option V :=
  match m with
  | [] => None
  | (k', v) :: m' => if String.eqb k' k then Some v else get m' k
  end.

Fixpoint set {V} (m : t V) (k : string) (v : V) : t V :=
  match m with
  | [] => [(k, v)]
  | (k', v') :: m' =>
      if String.eqb k' k then (k, v) :: m' else (k', v') :: set m' k v
  end.
End JsMap.

(** The node id of the variable of a tag: [`s=${device.id}_${tag.name}`]. *)
Definition nodeIdOf (id tag : string) : string :=
  String.append "s=" (String.append id (String.append "_" tag)).

(** ** The bridge *)

Section Bridge.
Context {collab : Collaborators}.

(** *** connectToDevice *)

(** The transport call of [connectToDevice] for the device's [type];
    for a type that is neither tcp nor rtu nothing is opened. *)
Definition openTransport (client : Client) (device : Device.t)
  : bool * Client * list Event :=
  if String.eqb (Device.type device) "tcp" then
    let p := Js.orZ (Device.port device) 502 in
    let r := connectTCP client (Device.address device) p in
    (r.1, r.2, [EConnectTCP (Device.id device) (Device.address device) p])
  else if String.eqb (Device.type device) "rtu" then
    let b := Js.orZ (Device.baudRate device) 9600 in
    let r := connectRTUBuffered client (Device.address device) b in
    (r.1, r.2, [EConnectRTU (Device.id device) (Device.address device) b])
  else (true, client, []).

Record ConnectResult : Type := mkConnectResult {
  cr_returned : bool;
  cr_device : Device.t;
  cr_clients : gmap string Client;
  cr_events : list Event
}.

Definition connectToDevice (modbusClients : gmap string Client)
    (device : Device.t) : ConnectResult :=
  match modbusClients !! Device.id device with
  | None => mkConnectResult false device modbusClients []
  | Some client =>
      if Device.connected device then
        mkConnectResult true device modbusClients []
      else
        let '(ok, client', evs) := openTransport client device in
        if ok then
          let unit := Js.orZ (Device.deviceId device) 1 in
          mkConnectResult true (Device.setConnected device true)
            (<[Device.id device := setID client' unit]> modbusClients)
            (evs ++ [ESetID (Device.id device) unit])
        else
          mkConnectResult false (Device.setConnected device false)
            (<[Device.id device := client']> modbusClients) evs
  end.

(** *** readDeviceData *)

(** The read issued for a tag, by its [registerType], with the number
    of items asked for; none for any other register type ([data] stays
    undefined). *)
Definition issueRead (client : Client) (tag : Tag.t)
  : option (ReadKind * Z * (ReadReply * Client)) :=
  let a := Tag.address tag in
  if String.eqb (Tag.registerType tag) "holding" then
    let n := getRegisterCount (Tag.dataType tag) in
    Some (HoldingRegisters, n, readHoldingRegisters client a n)
  else if String.eqb (Tag.registerType tag) "input" then
    let n := getRegisterCount (Tag.dataType tag) in
    Some (InputRegisters, n, readInputRegisters client a n)
  else if String.eqb (Tag.registerType tag) "coil" then
    Some (Coils, 1%Z, readCoils client a 1%Z)
  else if String.eqb (Tag.registerType tag) "discrete" then
    Some (DiscreteInputs, 1%Z, readDiscreteInputs client a 1%Z)
  else None.

(** One iteration of the loop over [device.tags]. [ps_caught] tells
    whether the [catch] block ran (it sets [device.connected = false]
    and closes the client, swallowing a failure of the close).  Here the
    close settles, resolved or rejected; [pollTagAwait] further down is
    the iteration when it may never settle. *)
Record PollStep : Type := mkPollStep {
  ps_tag : Tag.t;
  ps_client : Client;
  ps_caught : bool;
  ps_events : list Event
}.

Definition pollTag (id : string) (variables : option (JsMap.t string))
    (client : Client) (tag : Tag.t) : PollStep :=
  match issueRead client tag with
  | None => mkPollStep tag client false []
  | Some (kind, n, (reply, client')) =>
      let ev := ERead id kind (Tag.address tag) n in
      match reply with
      | Rejected _ => mkPollStep tag (close client') true [ev; EClose id]
      | Resolved None => mkPollStep tag client' false [ev]
      | Resolved (Some data) =>
          match convertModbusData data (Tag.dataType tag) with
          | Thrown _ => mkPollStep tag (close client') true [ev; EClose id]
          | Normal value =>
              let tag' := Tag.setCurrentValue tag value in
              let upd := ETagValue id (Tag.name tag) value in
              match variables ≫= (fun m => JsMap.get m (Tag.name tag)) with
              | None => mkPollStep tag' client' false [ev; upd]
              | Some variable =>
                  if variantThrows (getOPCUADataTypeCode (Tag.dataType tag))
                       value
                  then mkPollStep tag' (close client') true
                         [ev; upd; EClose id]
                  else mkPollStep tag' client' false
                         [ev; upd; ESetValueFromSource id variable value]
              end
          end
      end
  end.

Record PollLoop : Type := mkPollLoop {
  pl_tags : list Tag.t;
  pl_client : Client;
  pl_connected : bool;
  pl_events : list Event
}.

(** [for (const tag of device.tags) { try { ... } catch { ... } }] *)
Fixpoint pollTags (id : string) (variables : option (JsMap.t string))
    (client : Client) (connected : bool) (tags : list Tag.t) : PollLoop :=
  match tags with
  | [] => mkPollLoop [] client connected []
  | tag :: rest =>
      let s := pollTag id variables client tag in
      let r := pollTags id variables (ps_client s)
                 (if ps_caught s then false else connected) rest in
      mkPollLoop (ps_tag s :: pl_tags r) (pl_client r) (pl_connected r)
        (ps_events s ++ pl_events r)
  end.

Record ReadResult : Type := mkReadResult {
  rr_device : Device.t;
  rr_clients : gmap string Client;
  rr_events : list Event
}.

(** The loop of [readDeviceData], on a device whose client is known. *)
Definition readLoop (modbusClients : gmap string Client)
    (opcuaVariables : gmap string (JsMap.t string)) (client : Client)
    (device : Device.t) : ReadResult :=
  let r := pollTags (Device.id device) (opcuaVariables !! Device.id device)
             client (Device.connected device) (Device.tags device) in
  mkReadResult
    (Device.setTags (Device.setConnected device (pl_connected r)) (pl_tags r))
    (<[Device.id device := pl_client r]> modbusClients)
    (pl_events r).

(** [readDeviceData].  The client is the object fetched in the first
    line; after [connectToDevice] its state is the one in [cr_clients]. *)
Definition readDeviceData (modbusClients : gmap string Client)
    (opcuaVariables : gmap string (JsMap.t string)) (device : Device.t)
  : ReadResult :=
  match modbusClients !! Device.id device with
  | None => mkReadResult device modbusClients []
  | Some client =>
      if Device.connected device then
        readLoop modbusClients opcuaVariables client device
      else
        let c := connectToDevice modbusClients device in
        if cr_returned c then
          match cr_clients c !! Device.id device with
          | None => mkReadResult (cr_device c) (cr_clients c) (cr_events c)
          | Some client' =>
              let r := readLoop (cr_clients c) opcuaVariables client'
                         (cr_device c) in
              mkReadResult (rr_device r) (rr_clients r)
                (cr_events c ++ rr_events r)
          end
        else mkReadResult (cr_device c) (cr_clients c) (cr_events c)
  end.
End Bridge.

(** ** The server: registry, routes and timers *)

Inductive Response : Type :=
| Ok200
| BadRequest400
| NotFound404
| Error500.

Section Server.
Context {collab : Collaborators}.

(** Device objects are shared between the [devices] array and the
    closures given to [setInterval]: they live in [objects], and both
    refer to them by position.  A route handler or a timer callback is
    taken as one step: what it awaits is answered by the collaborators
    before anything else runs.  [saveDevicesConfig] writes a file and
    swallows its errors; it does not show here. *)
Record System : Type := mkSystem {
  objects : list Device.t;
  devices : list nat;
  modbusClients : gmap string Client;
  opcuaVariables : gmap string (JsMap.t string);
  timers : list nat
}.

Definition initialSystem : System := mkSystem [] [] ∅ ∅ [].

(** The devices array, dereferenced. *)
Definition registry (s : System) : list Device.t :=
  omap (fun a => objects s !! a) (devices s).

(** [devices.findIndex(d => d.id === deviceId)] *)
Fixpoint findIndex (objs : list Device.t) (devs : list nat)
    (deviceId : string) : option nat :=
  match devs with
  | [] => None
  | a :: rest =>
      match objs !! a with
      | Some d =>
          if String.eqb (Device.id d) deviceId then Some 0
          else S <$> findIndex objs rest deviceId
      | None => S <$> findIndex objs rest deviceId
      end
  end.

(** The body of the [forEach] of [initializeOPCUADevice], for the tags
    it gets through. *)
Definition registerVariable (id : string)
    (vars : gmap string (JsMap.t string)) (tag : Tag.t)
  : gmap string (JsMap.t string) :=
  <[id := JsMap.set (default [] (vars !! id)) (Tag.name tag)
            (nodeIdOf id (Tag.name tag))]> vars.

(** [initializeOPCUADevice]; [uaFails = Some k] when [addVariable]
    throws at the tag of index [k]. The boolean tells whether it threw. *)
Definition initializeOPCUADevice (uaFails : option nat) (device : Device.t)
    (vars : gmap string (JsMap.t string))
  : gmap string (JsMap.t string) * bool * list Event :=
  let all := Device.tags device in
  let done :=
    match uaFails with
    | Some k => take k all
    | None => all
    end in
  (foldl (registerVariable (Device.id device)) vars done,
   bool_decide (length done < length all),
   (fun tag => EAddVariable (nodeIdOf (Device.id device) (Tag.name tag)))
     <$> done).

(** [initializeModbusClient] *)
Definition initializeModbusClient (device : Device.t)
    (clients : gmap string Client) : gmap string Client :=
  <[Device.id device := newClient]> clients.

(** [removeDeviceVariables] *)
Definition removeDeviceVariables (deviceId : string)
    (vars : gmap string (JsMap.t string))
  : gmap string (JsMap.t string) * list Event :=
  match vars !! deviceId with
  | Some variables =>
      (delete deviceId vars,
       ERemoveDeviceVariables deviceId
         :: ((fun kv => EDispose kv.2) <$> variables))
  | None => (vars, [ERemoveDeviceVariables deviceId])
  end.

(** The validation of [POST /api/devices]. *)
Definition invalidBody (newDevice : Body.t) : bool :=
  negb (Js.truthyStr (Body.name newDevice))
  || negb (Js.truthyStr (Body.type newDevice))
  || negb (bool_decide (is_Some (Body.tags newDevice))).

(** The id of the new device: its own, or [Date.now().toString()]. *)
Definition assignId (newDevice : Body.t) (now : string) : string :=
  if Js.truthyStr (Body.id newDevice) then default "" (Body.id newDevice)
  else now.

(** The device object a validated body is. *)
Definition deviceOfBody (newDevice : Body.t) (now : string) : Device.t :=
  {| Device.id := assignId newDevice now;
     Device.name := default "" (Body.name newDevice);
     Device.type := default "" (Body.type newDevice);
     Device.address := Body.address newDevice;
     Device.port := Body.port newDevice;
     Device.baudRate := Body.baudRate newDevice;
     Device.deviceId := Body.deviceId newDevice;
     Device.pollInterval := Body.pollInterval newDevice;
     Device.connected := false;
     Device.tags := default [] (Body.tags newDevice) |}.

(** [startDevicePolling]: one more interval, whose callback polls the
    device object at [a]. Nothing in the server clears an interval. *)
Definition startDevicePolling (a : nat) (device : Device.t) (timers : list nat)
  : list nat * list Event :=
  (timers ++ [a],
   [ESetInterval (Device.id device) (Js.orZ (Device.pollInterval device) 2000)]).

(** [initializeDevice] for the device object at [a]; the boolean tells
    whether it threw, which it does when [initializeOPCUADevice] does. *)
Definition initializeDevice (uaFails : option nat) (a : nat) (device : Device.t)
    (s : System) : System * bool * list Event :=
  let '(vars, threw, evs) :=
    initializeOPCUADevice uaFails device (opcuaVariables s) in
  if threw then
    (mkSystem (objects s) (devices s) (modbusClients s) vars (timers s),
     true, evs)
  else
    let polling := startDevicePolling a device (timers s) in
    (mkSystem (objects s) (devices s)
       (initializeModbusClient device (modbusClients s)) vars polling.1,
     false, evs ++ polling.2).

(** [POST /api/devices].  [now] is the clock, [uaFails] the behaviour
    of the address space during [initializeDevice].  The device is pushed
    (and saved) before it is initialized, so it stays in [devices] when
    the handler ends in its [catch]. *)
Definition postDevice (s : System) (newDevice : Body.t) (now : string)
    (uaFails : option nat) : System * Response * list Event :=
  if invalidBody newDevice then (s, BadRequest400, [])
  else
    let device := deviceOfBody newDevice now in
    let a := length (objects s) in
    let pushed :=
      mkSystem (objects s ++ [device]) (devices s ++ [a]) (modbusClients s)
        (opcuaVariables s) (timers s) in
    let '(s', threw, evs) := initializeDevice uaFails a device pushed in
    (s', if threw then Error500 else Ok200, evs).

(** [DELETE /api/devices/:id] *)
Definition deleteDevice (s : System) (deviceId : string)
  : System * Response * list Event :=
  match findIndex (objects s) (devices s) deviceId with
  | None => (s, NotFound404, [])
  | Some index =>
      let '(vars, evs) := removeDeviceVariables deviceId (opcuaVariables s) in
      let '(clients, evs') :=
        match modbusClients s !! deviceId with
        | Some client => (delete deviceId (modbusClients s), [EClose deviceId])
        | None => (modbusClients s, [])
        end in
      (mkSystem (objects s) (delete index (devices s)) clients vars (timers s),
       Ok200, evs ++ evs')
  end.

(** The callback of the [k]-th interval: [readDeviceData(device)] on the
    device object the closure holds. *)
Definition tick (s : System) (k : nat) : System * list Event :=
  match timers s !! k with
  | None => (s, [])
  | Some a =>
      match objects s !! a with
      | None => (s, [])
      | Some device =>
          let r := readDeviceData (modbusClients s) (opcuaVariables s) device in
          (mkSystem (<[a := rr_device r]> (objects s)) (devices s)
             (rr_clients r) (opcuaVariables s) (timers s),
           rr_events r)
      end
  end.

(** The [error] and [close] listeners that [initializeModbusClient]
    puts on the client of the device object at [a]:
    [device.connected = false]. *)
Definition clientEvent (s : System) (a : nat) : System :=
  match objects s !! a with
  | None => s
  | Some device =>
      mkSystem (<[a := Device.setConnected device false]> (objects s))
        (devices s) (modbusClients s) (opcuaVariables s) (timers s)
  end.

(** [GET /api/values]: the object built by the two [forEach]. *)
Definition reportedValue (tag : Tag.t) : JsValue :=
  Js.orElse (Tag.currentValue tag) (JNum 0).

(** [o[k] = v] on an object literal, as far as its own properties go
    (they are what [res.json] sends).  The key [__proto__] names the
    prototype: assigning to it adds no property. *)
Definition setProperty {V : Type} (o : gmap string V) (k : string) (v : V)
  : gmap string V :=
  if String.eqb k "__proto__" then o else <[k := v]> o.

Definition tagValues (tags : list Tag.t) : gmap string JsValue :=
  foldl (fun o tag => setProperty o (Tag.name tag) (reportedValue tag)) ∅ tags.

Definition getValues (s : System) : gmap string (string * gmap string JsValue) :=
  foldl (fun values device =>
           setProperty values (Device.id device)
             (Device.name device, tagValues (Device.tags device)))
        ∅ (registry s).

(** What happens to the server, one handler or timer callback at a
    time. *)
Inductive Action : Type :=
| Post (newDevice : Body.t) (now : string) (uaFails : option nat)
| Delete (deviceId : string)
| Tick (k : nat)
| ClientEvent (a : nat).

Definition step (s : System) (a : Action) : System * list Event :=
  match a with
  | Post newDevice now uaFails =>
      let r := postDevice s newDevice now uaFails in (r.1.1, r.2)
  | Delete deviceId =>
      let r := deleteDevice s deviceId in (r.1.1, r.2)
  | Tick k => tick s k
  | ClientEvent a => (clientEvent s a, [])
  end.


(** Every entry of [devices] refers to a device object. *)
Definition wellFormed (s : System) : bool :=
  forallb (fun a => a <? length (objects s)) (devices s).

Fixpoint run (s : System) (actions : list Action) : System * list Event :=
  match actions with
  | [] => (s, [])
  | a :: rest =>
      let r := step s a in
      let r' := run r.1 rest in
      (r'.1, r.2 ++ r'.2)
  end.
End Server.

(** ** Reading the event log *)

Definition isRegisterTag (tag : Tag.t) : bool :=
  String.eqb (Tag.registerType tag) "holding"
  || String.eqb (Tag.registerType tag) "input".

Definition isBitTag (tag : Tag.t) : bool :=
  String.eqb (Tag.registerType tag) "coil"
  || String.eqb (Tag.registerType tag) "discrete".

Definition isReadable (tag : Tag.t) : bool := isRegisterTag tag || isBitTag tag.

Definition isRead (ev : Event) : bool :=
  match ev with
  | ERead _ _ _ _ => true
  | _ => false
  end.

Definition isRegisterRead (ev : Event) : bool :=
  match ev with
  | ERead _ HoldingRegisters _ _ | ERead _ InputRegisters _ _ => true
  | _ => false
  end.

(** Whether an event is poll activity for the device id [id]: a connect,
    a read, or a value written to a tag or pushed to its variable. *)
Definition pollActivity (id : string) (ev : Event) : bool :=
  match ev with
  | EConnectTCP i _ _ | EConnectRTU i _ _ | ESetID i _ | ERead i _ _ _
  | ETagValue i _ _ | ESetValueFromSource i _ _ => String.eqb i id
  | _ => false
  end.

(** A log with no poll activity for [id]. *)
Abbreviation quiet id := (Forall (fun ev => pollActivity id ev = false)).

Definition isRemoval (id : string) (ev : Event) : bool :=
  match ev with
  | ERemoveDeviceVariables i => String.eqb i id
  | _ => false
  end.

(** ** A scripted collaborator, for concrete runs *)

(** Every client answers its [n]-th read with the [n]-th reply of
    [script], and rejects once the script is exhausted; connects resolve
    or reject as [connects] says. *)
Definition scripted (connects : bool) (script : list ReadReply) : Collaborators :=
  {| Client := nat;
     newClient := 0%nat;
     connectTCP := fun c _ _ => (connects, c);
     connectRTUBuffered := fun c _ _ => (connects, c);
     setID := fun c _ => c;
     readHoldingRegisters := fun c _ _ =>
       (default (Rejected "Port Not Open") (script !! c), S c);
     readInputRegisters := fun c _ _ =>
       (default (Rejected "Port Not Open") (script !! c), S c);
     readCoils := fun c _ _ =>
       (default (Rejected "Port Not Open") (script !! c), S c);
     readDiscreteInputs := fun c _ _ =>
       (default (Rejected "Port Not Open") (script !! c), S c);
     close := fun c => c;
     variantThrows := fun _ _ => false |}.

Definition sampleTag (name registerType dataType : string) (address : Z) : Tag.t :=
  Tag.mk name registerType address dataType JUndefined.

Definition sampleBody (id : string) (tags : list Tag.t) : Body.t :=
  Body.mk (Some id) (Some "plc") (Some "tcp") "10.0.0.1" None None None None
    (Some tags).

Definition sampleDevice (id : string) (connected : bool) (tags : list Tag.t)
  : Device.t :=
  Device.mk id "plc" "tcp" "10.0.0.1" None None None None connected tags.

(** The reply of modbus-serial to a read of one coil that is on: the
    bits of one byte. *)
Definition oneCoilOn : list RawItem :=
  [Bit true; Bit false; Bit false; Bit false;
   Bit false; Bit false; Bit false; Bit false].

Definition coilAsBoolean : Tag.t := sampleTag "run" "coil" "boolean" 9.
Definition coilAsInt32 : Tag.t := sampleTag "run" "coil" "int32" 9.
Definition holdingA : Tag.t := sampleTag "a" "holding" "uint16" 5.
Definition holdingB : Tag.t := sampleTag "b" "holding" "uint16" 6.

(** Two devices posted under one id sharing a client, the second polled
    once, then the id removed. *)
Definition sharedIdRemoved
  : System (collab := scripted true [Resolved (Some [Word 7])]) :=
  (run initialSystem
     [Post (sampleBody "d1" [holdingA]) "0" None;
      Post (sampleBody "d1" [holdingB]) "1" None;
      Tick 1;
      Delete "d1"]).1.

(** A device posted, removed, and its id posted again for a device with
    another tag. *)
Definition idPostedAgain
  : System (collab := scripted true [Resolved (Some [Word 7])]) :=
  (run initialSystem
     [Post (sampleBody "d1" [holdingA]) "0" None;
      Delete "d1";
      Post (sampleBody "d1" [holdingB]) "1" None]).1.

(** The registry after one device was posted under the id d1. *)
Definition oneDevice : System (collab := scripted true []) :=
  (run initialSystem [Post (sampleBody "d1" [holdingA]) "0" None]).1.

(** A coil tag declared boolean, polled once while the coil is off. *)
Definition coilOff : System (collab := scripted true [Resolved (Some [Bit false])]) :=
  (run initialSystem [Post (sampleBody "d1" [coilAsBoolean]) "0" None; Tick 0]).1.

(** ** More of the server *)

(** Two tag objects that differ at most in [currentValue]. *)
Definition sameTagConfig (tag tag' : Tag.t) : Prop :=
  Tag.name tag = Tag.name tag'
  /\ Tag.registerType tag = Tag.registerType tag'
  /\ Tag.address tag = Tag.address tag'
  /\ Tag.dataType tag = Tag.dataType tag'.

(** Two device objects that differ at most in [connected] and in the
    [currentValue] of their tags. *)
Definition sameDeviceConfig (d d' : Device.t) : Prop :=
  Device.id d = Device.id d'
  /\ Device.name d = Device.name d'
  /\ Device.type d = Device.type d'
  /\ Device.address d = Device.address d'
  /\ Device.port d = Device.port d'
  /\ Device.baudRate d = Device.baudRate d'
  /\ Device.deviceId d = Device.deviceId d'
  /\ Device.pollInterval d = Device.pollInterval d'
  /\ Forall2 sameTagConfig (Device.tags d) (Device.tags d').

Definition isClose (ev : Event) : bool :=
  match ev with
  | EClose _ => true
  | _ => false
  end.

Definition isTagValue (ev : Event) : bool :=
  match ev with
  | ETagValue _ _ _ => true
  | _ => false
  end.

(** Two devices posted under one id. *)
Definition sharedIdPosted : System (collab := scripted true []) :=
  (run initialSystem
     [Post (sampleBody "d1" [holdingA]) "0" None;
      Post (sampleBody "d1" [holdingB]) "1" None]).1.

(** *** main: the devices of the configuration file *)

(** How the start of the server goes: whether [server.initialize] and
    [server.start] resolve, and where ([device index, tag index])
    [addVariable] throws, if it does. *)
Record Startup : Type := mkStartup {
  su_initialize : bool;
  su_uaFails : option (nat * nat);
  su_start : bool
}.

Section Main.
Context {collab : Collaborators}.

(** The [forEach] of [main] over the loaded devices, from the device of
    index [i] on: [initializeOPCUADevice], then [initializeModbusClient].
    The boolean tells whether it threw. *)
Fixpoint initializeAll (uaFails : option (nat * nat)) (i : nat)
    (devs : list Device.t) (vars : gmap string (JsMap.t string))
    (clients : gmap string Client)
  : gmap string (JsMap.t string) * gmap string Client * bool * list Event :=
  match devs with
  | [] => (vars, clients, false, [])
  | device :: rest =>
      let here :=
        match uaFails with
        | Some (j, k) => if j =? i then Some k else None
        | None => None
        end in
      let '(vars', threw, evs) := initializeOPCUADevice here device vars in
      if threw then (vars', clients, true, evs)
      else
        let '(vars'', clients', threw', evs') :=
          initializeAll uaFails (S i) rest vars'
            (initializeModbusClient device clients) in
        (vars'', clients', threw', evs ++ evs')
  end.

(** The [forEach] of [startAllDevicesPolling] over the entries of
    [devices]. *)
Fixpoint startEach (objs : list Device.t) (addrs : list nat) (timers : list nat)
  : list nat * list Event :=
  match addrs with
  | [] => (timers, [])
  | a :: rest =>
      match objs !! a with
      | Some device =>
          let polling := startDevicePolling a device timers in
          let r := startEach objs rest polling.1 in
          (r.1, polling.2 ++ r.2)
      | None => startEach objs rest timers
      end
  end.

(** [startAllDevicesPolling] *)
Definition startAllDevicesPolling (s : System) : System * list Event :=
  let r := startEach (objects s) (devices s) (timers s) in
  (mkSystem (objects s) (devices s) (modbusClients s) (opcuaVariables s) r.1,
   r.2).

(** [main], on the devices [loadDevicesConfig] got from the file (none
    when the file is missing or does not parse).  An exception anywhere
    ends it in its [catch], which only logs. *)
Definition main (config : list Device.t) (su : Startup) : System * list Event :=
  let loaded := mkSystem config (seq 0 (length config)) ∅ ∅ [] in
  if negb (su_initialize su) then (loaded, [])
  else
    let '(vars, clients, threw, evs) :=
      initializeAll (su_uaFails su) 0 config ∅ ∅ in
    let initialized := mkSystem config (seq 0 (length config)) clients vars [] in
    if threw then (initialized, evs)
    else if negb (su_start su) then (initialized, evs)
    else
      let polling := startAllDevicesPolling initialized in
      (polling.1, evs ++ polling.2).
End Main.

(** *** The server with two fixed devices *)

Module Fixed.
Definition MODBUS_IP : string := "10.29.101.200".
Definition MODBUS_PORT : Z := 502.
Definition DEVICE_ID : Z := 1.
Definition TAG_ADDRESS : Z := 97.
Definition COM_PORT : string := "COM7".
Definition BAUD_RATE : Z := 9600.
Definition RTU_DEVICE_ID : Z := 4.
Definition RTU_REGISTER_ADDRESS : Z := 1.

Section Fixed.
Context {collab : Collaborators}.

(** The module variables. *)
Record State : Type := mkState {
  currentValue : JsValue;
  rtuValue : JsValue;
  modbusClient : Client;
  modbusRTUClient : Client;
  isModbusConnected : bool;
  isModbusRTUConnected : bool
}.

(** [modbusClient] after a call on it, and [isModbusConnected]. *)
Definition withTCP (st : State) (client : Client) (connected : bool) : State :=
  mkState (currentValue st) (rtuValue st) client (modbusRTUClient st)
    connected (isModbusRTUConnected st).

Definition withRTU (st : State) (client : Client) (connected : bool) : State :=
  mkState (currentValue st) (rtuValue st) (modbusClient st) client
    (isModbusConnected st) connected.

Definition setCurrentValue (st : State) (value : JsValue) : State :=
  mkState value (rtuValue st) (modbusClient st) (modbusRTUClient st)
    (isModbusConnected st) (isModbusRTUConnected st).

Definition setRtuValue (st : State) (value : JsValue) : State :=
  mkState (currentValue st) value (modbusClient st) (modbusRTUClient st)
    (isModbusConnected st) (isModbusRTUConnected st).

Definition connectToModbusTCP (st : State) : bool * State :=
  if isModbusConnected st then (true, st)
  else
    let r := connectTCP (modbusClient st) MODBUS_IP MODBUS_PORT in
    if r.1 then (true, withTCP st (setID r.2 DEVICE_ID) true)
    else (false, withTCP st r.2 false).

Definition connectToModbusRTU (st : State) : bool * State :=
  if isModbusRTUConnected st then (true, st)
  else
    let r := connectRTUBuffered (modbusRTUClient st) COM_PORT BAUD_RATE in
    if r.1 then (true, withRTU st (setID r.2 RTU_DEVICE_ID) true)
    else (false, withRTU st r.2 false).

(** The [try] block of [readModbusTCPData] and its [catch]. *)
Definition readTCP (st : State) : State :=
  let r := readHoldingRegisters (modbusClient st) TAG_ADDRESS 2 in
  let caught := withTCP st (close r.2) false in
  match r.1 with
  | Rejected _ => caught
  | Resolved None => withTCP st r.2 (isModbusConnected st)
  | Resolved (Some data) =>
      if 2 <=? length data then
        match Buffer.writeUInt16BE (Buffer.alloc 4) (data !! 0%nat) 0 with
        | Thrown _ => caught
        | Normal buffer =>
            match Buffer.writeUInt16BE buffer (data !! 1%nat) 2 with
            | Thrown _ => caught
            | Normal buffer' =>
                setCurrentValue (withTCP st r.2 (isModbusConnected st))
                  (Buffer.readFloatBE buffer' 0)
            end
        end
      else withTCP st r.2 (isModbusConnected st)
  end.

Definition readModbusTCPData (st : State) : State :=
  if isModbusConnected st then readTCP st
  else
    let c := connectToModbusTCP st in
    if c.1 then readTCP c.2 else c.2.

(** The [try] block of [readModbusRTUData] and its [catch]. *)
Definition readRTU (st : State) : State :=
  let r := readHoldingRegisters (modbusRTUClient st) RTU_REGISTER_ADDRESS 1 in
  match r.1 with
  | Rejected _ => withRTU st (close r.2) false
  | Resolved None => withRTU st r.2 (isModbusRTUConnected st)
  | Resolved (Some data) =>
      if 1 <=? length data then
        setRtuValue (withRTU st r.2 (isModbusRTUConnected st))
          (Js.valueOf (data !! 0%nat))
      else withRTU st r.2 (isModbusRTUConnected st)
  end.

Definition readModbusRTUData (st : State) : State :=
  if isModbusRTUConnected st then readRTU st
  else
    let c := connectToModbusRTU st in
    if c.1 then readRTU c.2 else c.2.
End Fixed.
End Fixed.

(** The fixed-device server, connected, on clients that answer with a
    given script. *)
Definition fixedConnected (script : list ReadReply) (value : JsValue)
  : Fixed.State (collab := scripted true script) :=
  Fixed.mkState (collab := scripted true script) value (JNum 0) 0%nat 0%nat
    true true.

(** *** The loop, when a close may never settle *)

Section Awaited.
Context {collab : Collaborators}.

(** Whether [await client.close()], on a client in a given state, ever
    settles.  When it does not, the [catch] block never ends, and the
    cycle stays where it is for good. *)
Variable closeSettles : Client -> bool.

(** The [catch] block of an iteration, entered with the events [evs] of
    the [try] block behind it.  The boolean tells whether the cycle is
    stuck in it; the client is then left as the call found it. *)
Definition catchBlock (id : string) (tag : Tag.t) (client : Client)
    (evs : list Event) : PollStep * bool :=
  if closeSettles client
  then (mkPollStep tag (close client) true (evs ++ [EClose id]), false)
  else (mkPollStep tag client true (evs ++ [EClose id]), true).

Definition pollTagAwait (id : string) (variables : option (JsMap.t string))
    (client : Client) (tag : Tag.t) : PollStep * bool :=
  match issueRead client tag with
  | None => (mkPollStep tag client false [], false)
  | Some (kind, n, (reply, client')) =>
      let ev := ERead id kind (Tag.address tag) n in
      match reply with
      | Rejected _ => catchBlock id tag client' [ev]
      | Resolved None => (mkPollStep tag client' false [ev], false)
      | Resolved (Some data) =>
          match convertModbusData data (Tag.dataType tag) with
          | Thrown _ => catchBlock id tag client' [ev]
          | Normal value =>
              let tag' := Tag.setCurrentValue tag value in
              let upd := ETagValue id (Tag.name tag) value in
              match variables ≫= (fun m => JsMap.get m (Tag.name tag)) with
              | None => (mkPollStep tag' client' false [ev; upd], false)
              | Some variable =>
                  if variantThrows (getOPCUADataTypeCode (Tag.dataType tag))
                       value
                  then catchBlock id tag' client' [ev; upd]
                  else (mkPollStep tag' client' false
                          [ev; upd; ESetValueFromSource id variable value],
                        false)
              end
          end
      end
  end.

(** The loop over [device.tags], as far as it gets: the tags, client,
    connected flag and log reached, and whether the cycle is stuck. *)
Fixpoint pollTagsAwait (id : string) (variables : option (JsMap.t string))
    (client : Client) (connected : bool) (tags : list Tag.t)
  : PollLoop * bool :=
  match tags with
  | [] => (mkPollLoop [] client connected [], false)
  | tag :: rest =>
      let s := pollTagAwait id variables client tag in
      let connected' := if ps_caught s.1 then false else connected in
      if s.2 then
        (mkPollLoop (ps_tag s.1 :: rest) (ps_client s.1) connected'
           (ps_events s.1),
         true)
      else
        let r := pollTagsAwait id variables (ps_client s.1) connected' rest in
        (mkPollLoop (ps_tag s.1 :: pl_tags r.1) (pl_client r.1)
           (pl_connected r.1) (ps_events s.1 ++ pl_events r.1),
         r.2)
  end.

Definition readLoopAwait (modbusClients : gmap string Client)
    (opcuaVariables : gmap string (JsMap.t string)) (client : Client)
    (device : Device.t) : ReadResult * bool :=
  let r := pollTagsAwait (Device.id device) (opcuaVariables !! Device.id device)
             client (Device.connected device) (Device.tags device) in
  (mkReadResult
     (Device.setTags (Device.setConnected device (pl_connected r.1))
        (pl_tags r.1))
     (<[Device.id device := pl_client r.1]> modbusClients)
     (pl_events r.1),
   r.2).

(** Client states in which every read is rejected, and that reads and
    closes do not lead out of: what a closed client is until it connects
    again. *)
Definition rejectsReads (closed : Client -> Prop) : Prop :=
  (forall c, closed c -> closed (close c))
  /\ (forall c a n, closed c ->
        exists err c', readHoldingRegisters c a n = (Rejected err, c')
                       /\ closed c')
  /\ (forall c a n, closed c ->
        exists err c', readInputRegisters c a n = (Rejected err, c')
                       /\ closed c')
  /\ (forall c a n, closed c ->
        exists err c', readCoils c a n = (Rejected err, c') /\ closed c')
  /\ (forall c a n, closed c ->
        exists err c', readDiscreteInputs c a n = (Rejected err, c')
                       /\ closed c').
End Awaited.

(** A collaborator that behaves like modbus-serial over TCP: a client is
    open or not, with the number of reads it has answered; an open client
    answers from [script] (and rejects once it is exhausted), a client
    that is not open rejects every read; a close leaves it not open. *)
Definition tcpLike (script : list ReadReply) : Collaborators :=
  {| Client := bool * nat;
     newClient := (false, 0%nat);
     connectTCP := fun c _ _ => (true, (true, c.2));
     connectRTUBuffered := fun c _ _ => (true, (true, c.2));
     setID := fun c _ => c;
     readHoldingRegisters := fun c _ _ =>
       if c.1 then (default (Rejected "Timed out") (script !! c.2), (true, S c.2))
       else (Rejected "Port Not Open", c);
     readInputRegisters := fun c _ _ =>
       if c.1 then (default (Rejected "Timed out") (script !! c.2), (true, S c.2))
       else (Rejected "Port Not Open", c);
     readCoils := fun c _ _ =>
       if c.1 then (default (Rejected "Timed out") (script !! c.2), (true, S c.2))
       else (Rejected "Port Not Open", c);
     readDiscreteInputs := fun c _ _ =>
       if c.1 then (default (Rejected "Timed out") (script !! c.2), (true, S c.2))
       else (Rejected "Port Not Open", c);
     close := fun c => (false, c.2);
     variantThrows := fun _ _ => false |}.

(** Over TCP the close of a client that is not open never settles. *)
Definition tcpCloseSettles (c : bool * nat) : bool := c.1.

Definition holdingC : Tag.t := sampleTag "c" "holding" "uint16" 7.

(** * Properties *)

(** ** Register codec *)

Example convert_float_pattern :
  convertModbusData [Word 0x4248; Word 0] "float" = Normal (JFloat 0x42480000).
Proof. reflexivity. Qed.

Example convert_float_out_of_range :
  convertModbusData [Word 65536; Word 0] "float" = Thrown "ERR_OUT_OF_RANGE".
Proof. reflexivity. Qed.

Section CodecFacts.
Local Open Scope Z_scope.

Lemma wrap32_small n : - 2 ^ 31 <= n < 2 ^ 31 -> Js.wrap32 n = n.
Proof.
  intros Hn. unfold Js.wrap32.
  change (2 ^ 31) with 2147483648 in *. change (2 ^ 32) with 4294967296.
  rewrite Z.mod_small; lia.
Qed.

Lemma wrap32_high n : 2 ^ 31 <= n < 2 ^ 32 -> Js.wrap32 n = n - 2 ^ 32.
Proof.
  intros Hn. unfold Js.wrap32.
  change (2 ^ 31) with 2147483648 in *. change (2 ^ 32) with 4294967296 in *.
  replace (n + 2147483648) with (n - 2147483648 + 1 * 4294967296) by lia.
  rewrite Z_mod_plus_full, Z.mod_small; lia.
Qed.

(** [w << 16] on a 16-bit word: the word moved to the high half, read
    as a signed 32-bit integer. *)
Lemma shl16_word w :
  0 <= w < 65536 ->
  Js.shl (Some (Word w)) 16
  = if w <? 32768 then w * 65536 else w * 65536 - 2 ^ 32.
Proof.
  intros Hw. unfold Js.shl. cbn [Js.toNumber Js.toInt32].
  rewrite (wrap32_small w) by (change (2 ^ 31) with 2147483648; lia).
  rewrite Z.shiftl_mul_pow2 by lia.
  change (2 ^ 16) with 65536.
  destruct (Z.ltb_spec w 32768).
  - apply wrap32_small. change (2 ^ 31) with 2147483648. lia.
  - apply wrap32_high.
    change (2 ^ 31) with 2147483648. change (2 ^ 32) with 4294967296. lia.
Qed.

(** The value both 32-bit cases compute from two 16-bit words: the
    32-bit combination read as a signed integer. *)
Lemma convert_32bit_words w0 w1 (dataType : string) :
  dataType = "int32"%string \/ dataType = "uint32"%string ->
  0 <= w0 < 65536 -> 0 <= w1 < 65536 ->
  convertModbusData [Word w0; Word w1] dataType
  = Normal (JNum (let c := w0 * 65536 + w1 in
                  if c <? 2 ^ 31 then c else c - 2 ^ 32)).
Proof.
  intros Hdt H0 H1.
  assert (Hc : convertModbusData [Word w0; Word w1] dataType
               = Normal (Js.add (Js.shl (Some (Word w0)) 16) (Some (Word w1))))
    by (destruct Hdt; subst; reflexivity).
  rewrite Hc, shl16_word by lia. cbn [Js.add Js.toNumber].
  do 2 f_equal. cbv zeta.
  change (2 ^ 31) with 2147483648. change (2 ^ 32) with 4294967296.
  destruct (Z.ltb_spec w0 32768), (Z.ltb_spec (w0 * 65536 + w1) 2147483648); lia.
Qed.
End CodecFacts.

(** C5, the int32 half: two 16-bit words decode to their 32-bit
    combination, minus 2^32 when the combination is at least 2^31. *)
Lemma convert_int32_sign_extends (w0 w1 : Z) :
  (0 <= w0 < 65536)%Z -> (0 <= w1 < 65536)%Z ->
  convertModbusData [Word w0; Word w1] "int32"
  = Normal (JNum (let c := (w0 * 65536 + w1)%Z in
                  if (c <? 2 ^ 31)%Z then c else (c - 2 ^ 32)%Z)).
Proof. intros. apply convert_32bit_words; auto. Qed.

(** C5, the uint32 half below 2^31: the unsigned combination. *)
Lemma convert_uint32_low (w0 w1 : Z) :
  (0 <= w0 < 32768)%Z -> (0 <= w1 < 65536)%Z ->
  convertModbusData [Word w0; Word w1] "uint32"
  = Normal (JNum (w0 * 65536 + w1)%Z).
Proof.
  intros H0 H1. rewrite convert_32bit_words by (auto; lia). cbv zeta.
  change (2 ^ 31)%Z with 2147483648%Z.
  destruct (Z.ltb_spec (w0 * 65536 + w1) 2147483648); [reflexivity | lia].
Qed.

(** C5, the uint32 half from 2^31 on: the code computes the same signed
    value as for int32, which is negative, not the unsigned combination. *)
Lemma convert_uint32_high (w0 w1 : Z) :
  (32768 <= w0 < 65536)%Z -> (0 <= w1 < 65536)%Z ->
  convertModbusData [Word w0; Word w1] "uint32"
  = Normal (JNum (w0 * 65536 + w1 - 2 ^ 32)%Z).
Proof.
  intros H0 H1. rewrite convert_32bit_words by (auto; lia). cbv zeta.
  change (2 ^ 31)%Z with 2147483648%Z.
  destruct (Z.ltb_spec (w0 * 65536 + w1) 2147483648); [lia | reflexivity].
Qed.

(** C5: decoding the words 32768, 0 as uint32 yields -2147483648 where
    the unsigned 32-bit combination is 32768 * 65536 + 0 = 2147483648. *)
Theorem convert_uint32_at_0x8000_0000 :
  convertModbusData [Word 32768; Word 0] "uint32" = Normal (JNum (-2147483648))
  /\ convertModbusData [Word 32768; Word 0] "uint32"
     <> Normal (JNum (32768 * 65536 + 0)).
Proof. split; [reflexivity | discriminate]. Qed.

(** C8: a word decodes as int16 to itself below 32768 and to itself minus
    65536 from 32768 on, and as uint16 to itself; at the boundaries,
    32767 and 32768 give 32767 and -32768 as int16, 0 and 65535 give 0
    and 65535 as uint16. *)
Theorem convert_int16_uint16 (w : Z) (rest : list RawItem) :
  convertModbusData (Word w :: rest) "int16"
  = Normal (JNum (if (w <? 32768)%Z then w else (w - 65536)%Z))
  /\ convertModbusData (Word w :: rest) "uint16" = Normal (JNum w)
  /\ convertModbusData [Word 32767] "int16" = Normal (JNum 32767)
  /\ convertModbusData [Word 32768] "int16" = Normal (JNum (-32768))
  /\ convertModbusData [Word 0] "uint16" = Normal (JNum 0)
  /\ convertModbusData [Word 65535] "uint16" = Normal (JNum 65535).
Proof.
  repeat split; try reflexivity.
  unfold convertModbusData. cbn.
  destruct (Z.ltb_spec 32767 w), (Z.ltb_spec w 32768); try lia; reflexivity.
Qed.

(** ** The poll loop *)

Section PollFacts.
Context {collab : Collaborators}.
Implicit Types (id : string) (vars : option (JsMap.t string)).
Implicit Types (c : Client) (tag : Tag.t) (tags : list Tag.t).

(** The loop over a concatenation is the loop over the first part
    followed by the loop over the second, from where the first ended. *)
Lemma pollTags_app id vars c conn tags1 tags2 :
  pollTags id vars c conn (tags1 ++ tags2)
  = let r1 := pollTags id vars c conn tags1 in
    let r2 := pollTags id vars (pl_client r1) (pl_connected r1) tags2 in
    mkPollLoop (pl_tags r1 ++ pl_tags r2) (pl_client r2) (pl_connected r2)
      (pl_events r1 ++ pl_events r2).
Proof.
  revert c conn. induction tags1 as [|tag tags1 IH]; intros c conn.
  - cbn. by destruct (pollTags id vars c conn tags2).
  - cbn [app pollTags]. rewrite IH. cbn. by rewrite app_assoc.
Qed.

Lemma pollTags_length id vars c conn tags :
  length (pl_tags (pollTags id vars c conn tags)) = length tags.
Proof.
  revert c conn. induction tags as [|tag tags IH]; intros c conn; cbn.
  - done.
  - by rewrite IH.
Qed.

(** Nothing in the loop sets [device.connected] to true. *)
Lemma pollTags_stays_disconnected id vars c tags :
  pl_connected (pollTags id vars c false tags) = false.
Proof.
  revert c. induction tags as [|tag tags IH]; intros c; cbn.
  - done.
  - destruct (ps_caught _); apply IH.
Qed.

(** An iteration leaves everything of the tag but [currentValue]. *)
Lemma pollTag_same_tag id vars c tag :
  ps_tag (pollTag id vars c tag) = tag
  \/ exists value, ps_tag (pollTag id vars c tag) = Tag.setCurrentValue tag value.
Proof.
  unfold pollTag.
  destruct (issueRead c tag) as [[[kind n] [[err|[data|]] c']]|]; cbn; auto.
  destruct (convertModbusData data (Tag.dataType tag)) as [value|]; cbn; auto.
  destruct (vars ≫= _); [destruct (variantThrows _ _)|]; cbn; eauto.
Qed.

(** An iteration whose read is rejected: the tag is not touched, the
    [catch] block runs. *)
Lemma pollTag_rejected id vars c tag kind n err c' :
  issueRead c tag = Some (kind, n, (Rejected err, c')) ->
  pollTag id vars c tag
  = mkPollStep tag (close c') true
      [ERead id kind (Tag.address tag) n; EClose id].
Proof. intros H. unfold pollTag. by rewrite H. Qed.

(** An iteration whose read brings data that decodes: the tag gets the
    decoded value, whatever happens to the variable afterwards. *)
Lemma pollTag_decoded id vars c tag kind n data c' value :
  issueRead c tag = Some (kind, n, (Resolved (Some data), c')) ->
  convertModbusData data (Tag.dataType tag) = Normal value ->
  ps_tag (pollTag id vars c tag) = Tag.setCurrentValue tag value.
Proof.
  intros H Hv. unfold pollTag. rewrite H, Hv.
  destruct (vars ≫= _); [destruct (variantThrows _ _)|]; done.
Qed.

(** The register reads of one iteration. *)
Lemma pollTag_register_reads id vars c tag :
  List.filter isRegisterRead (ps_events (pollTag id vars c tag))
  = if isRegisterTag tag
    then [ERead id (if String.eqb (Tag.registerType tag) "holding"
                    then HoldingRegisters else InputRegisters)
            (Tag.address tag) (getRegisterCount (Tag.dataType tag))]
    else [].
Proof.
  unfold pollTag, issueRead, isRegisterTag.
  destruct (String.eqb (Tag.registerType tag) "holding") eqn:Hh; cbn [orb].
  { destruct (readHoldingRegisters _ _ _) as [[err|[data|]] c']; cbn; try done.
    destruct (convertModbusData _ _); cbn; try done.
    destruct (vars ≫= _); [destruct (variantThrows _ _)|]; done. }
  destruct (String.eqb (Tag.registerType tag) "input") eqn:Hi; cbn [orb].
  { destruct (readInputRegisters _ _ _) as [[err|[data|]] c']; cbn; try done.
    destruct (convertModbusData _ _); cbn; try done.
    destruct (vars ≫= _); [destruct (variantThrows _ _)|]; done. }
  destruct (String.eqb (Tag.registerType tag) "coil") eqn:Hc.
  { destruct (readCoils _ _ _) as [[err|[data|]] c']; cbn; try done.
    destruct (convertModbusData _ _); cbn; try done.
    destruct (vars ≫= _); [destruct (variantThrows _ _)|]; done. }
  destruct (String.eqb (Tag.registerType tag) "discrete") eqn:Hd.
  { destruct (readDiscreteInputs _ _ _) as [[err|[data|]] c']; cbn; try done.
    destruct (convertModbusData _ _); cbn; try done.
    destruct (vars ≫= _); [destruct (variantThrows _ _)|]; done. }
  done.
Qed.

(** The register reads of a whole pass, tag by tag. *)
Lemma pollTags_register_reads id vars c conn tags :
  Forall2
    (fun tag ev =>
       exists kind,
         ev = ERead id kind (Tag.address tag)
                (getRegisterCount (Tag.dataType tag)))
    (List.filter isRegisterTag tags)
    (List.filter isRegisterRead (pl_events (pollTags id vars c conn tags))).
Proof.
  revert c conn. induction tags as [|tag tags IH]; intros c conn; cbn.
  - constructor.
  - rewrite List.filter_app, pollTag_register_reads.
    destruct (isRegisterTag tag); cbn.
    + constructor; [eauto | apply IH].
    + apply IH.
Qed.

Lemma connectToDevice_no_reads mc (d : Device.t) :
  List.filter isRegisterRead (cr_events (connectToDevice mc d)) = [].
Proof.
  unfold connectToDevice, openTransport.
  destruct (mc !! Device.id d); [|done].
  destruct (Device.connected d); [done|].
  destruct (String.eqb (Device.type d) "tcp").
  { destruct (connectTCP _ _ _) as [[] ?]; done. }
  destruct (String.eqb (Device.type d) "rtu").
  { destruct (connectRTUBuffered _ _ _) as [[] ?]; done. }
  done.
Qed.

(** On a connected device with a client, the cycle is the loop. *)
Lemma readDeviceData_connected mc (ua : gmap string (JsMap.t string))
    (d : Device.t) c :
  mc !! Device.id d = Some c ->
  Device.connected d = true ->
  readDeviceData mc ua d = readLoop mc ua c d.
Proof. intros Hc Hconn. unfold readDeviceData. by rewrite Hc, Hconn. Qed.

Lemma connectToDevice_keeps_tags mc (d : Device.t) :
  Device.tags (cr_device (connectToDevice mc d)) = Device.tags d
  /\ Device.id (cr_device (connectToDevice mc d)) = Device.id d.
Proof.
  unfold connectToDevice.
  destruct (mc !! Device.id d); [|done].
  destruct (Device.connected d); [done|].
  destruct (openTransport _ _) as [[[] ?] ?]; done.
Qed.
End PollFacts.

(** C9: [getRegisterCount] is 2 for float, int32 and uint32 and 1 for
    int16, uint16 and boolean; the loop of a poll cycle reads the holding
    and input tags one read each, in the order of the tags, each at the
    tag's address for [getRegisterCount] of the tag's dataType words; and
    a poll cycle issues these reads or, when it does not get to the loop
    (no client, or the connect failed), no register read at all. *)
Theorem register_count_and_requests :
  (getRegisterCount "float" = 2%Z /\ getRegisterCount "int32" = 2%Z
   /\ getRegisterCount "uint32" = 2%Z /\ getRegisterCount "int16" = 1%Z
   /\ getRegisterCount "uint16" = 1%Z /\ getRegisterCount "boolean" = 1%Z)
  /\ forall (collab : Collaborators) (mc : gmap string Client)
       (vars : gmap string (JsMap.t string)) (d : Device.t),
      (forall c : Client,
          Forall2
            (fun tag ev =>
               exists kind,
                 ev = ERead (Device.id d) kind (Tag.address tag)
                        (getRegisterCount (Tag.dataType tag)))
            (List.filter isRegisterTag (Device.tags d))
            (List.filter isRegisterRead (rr_events (readLoop mc vars c d))))
      /\ let reads :=
           List.filter isRegisterRead (rr_events (readDeviceData mc vars d)) in
         reads = []
         \/ Forall2
              (fun tag ev =>
                 exists kind,
                   ev = ERead (Device.id d) kind (Tag.address tag)
                          (getRegisterCount (Tag.dataType tag)))
              (List.filter isRegisterTag (Device.tags d)) reads.
Proof.
  split; [by repeat split|].
  intros collab mc vars d. split.
  { intros c. unfold readLoop. cbn [rr_events]. apply pollTags_register_reads. }
  intros reads. subst reads.
  unfold readDeviceData.
  destruct (mc !! Device.id d) as [c|]; [|by left].
  destruct (Device.connected d) eqn:Hconn.
  { right. unfold readLoop. cbn [rr_events]. apply pollTags_register_reads. }
  destruct (cr_returned (connectToDevice mc d)) eqn:Hret.
  - destruct (cr_clients (connectToDevice mc d) !! Device.id d) as [c'|];
      cbn [rr_events].
    + right. rewrite List.filter_app, connectToDevice_no_reads. cbn [app].
      unfold readLoop. cbn [rr_events].
      destruct (connectToDevice_keeps_tags mc d) as [-> ->].
      apply pollTags_register_reads.
    + left. apply connectToDevice_no_reads.
  - left. cbn [rr_events]. apply connectToDevice_no_reads.
Qed.

(** ** Coil and discrete-input reads *)

(** A bit decodes to itself under every dataType but the three two-word
    ones. *)
Lemma convert_bit (b : bool) (rest : list RawItem) (dataType : string) :
  dataType <> "float" -> dataType <> "int32" -> dataType <> "uint32" ->
  convertModbusData (Bit b :: rest) dataType = Normal (JBool b).
Proof.
  intros Hf Hi Hu. unfold convertModbusData.
  apply String.eqb_neq in Hf, Hi, Hu. rewrite Hf, Hi, Hu.
  destruct b; cbn; by repeat case_match.
Qed.

Section BitReads.
Context {collab : Collaborators}.

Lemma issueRead_bit_length (c : Client) (tag : Tag.t) kind n reply :
  isBitTag tag = true ->
  issueRead c tag = Some (kind, n, reply) -> n = 1%Z.
Proof.
  unfold isBitTag, issueRead. intros Hbit.
  destruct (String.eqb (Tag.registerType tag) "holding") eqn:Hh.
  { apply String.eqb_eq in Hh. rewrite Hh in Hbit. done. }
  destruct (String.eqb (Tag.registerType tag) "input") eqn:Hi.
  { apply String.eqb_eq in Hi. rewrite Hi in Hbit. done. }
  destruct (String.eqb (Tag.registerType tag) "coil");
    [by intros [= _ <- _]|].
  destruct (String.eqb (Tag.registerType tag) "discrete");
    [by intros [= _ <- _]|done].
Qed.

(** The tags after a pass of the loop, at the position of one tag. *)
Lemma readLoop_tag_at mc vars (c : Client) (d : Device.t) pre tag post :
  Device.tags d = pre ++ tag :: post ->
  Device.tags (rr_device (readLoop mc vars c d)) !! length pre
  = Some (ps_tag (pollTag (Device.id d) (vars !! Device.id d)
            (pl_client (pollTags (Device.id d) (vars !! Device.id d) c
                          (Device.connected d) pre))
            tag)).
Proof.
  intros Htags. unfold readLoop. cbn [rr_device Device.setTags Device.tags].
  rewrite Htags, pollTags_app. cbn [pl_tags pollTags].
  rewrite lookup_app_r by (rewrite pollTags_length; lia).
  by rewrite pollTags_length, Nat.sub_diag.
Qed.
End BitReads.

(** C1, as the code has it: in a poll cycle, the read of a coil or
    discrete tag asks for one bit, and when the tag's dataType is none of
    float, int32 and uint32 the value written to its currentValue is the
    boolean of the first bit fetched. *)
Theorem bit_read_writes_boolean {collab : Collaborators}
    (mc : gmap string Client) (vars : gmap string (JsMap.t string))
    (c : Client) (d : Device.t) (pre post : list Tag.t) (tag : Tag.t)
    (kind : ReadKind) (n : Z) (b : bool) (rest : list RawItem) (c' : Client) :
  Device.tags d = pre ++ tag :: post ->
  isBitTag tag = true ->
  Tag.dataType tag <> "float" ->
  Tag.dataType tag <> "int32" ->
  Tag.dataType tag <> "uint32" ->
  issueRead (pl_client (pollTags (Device.id d) (vars !! Device.id d) c
                          (Device.connected d) pre)) tag
  = Some (kind, n, (Resolved (Some (Bit b :: rest)), c')) ->
  n = 1%Z
  /\ Device.tags (rr_device (readLoop mc vars c d)) !! length pre
     = Some (Tag.setCurrentValue tag (JBool b)).
Proof.
  intros Htags Hbit Hf Hi Hu Hread. split.
  - eapply issueRead_bit_length; eauto.
  - rewrite (readLoop_tag_at mc vars c d pre tag post Htags).
    f_equal. eapply pollTag_decoded; [exact Hread|].
    by apply convert_bit.
Qed.

Lemma bit_read_writes_boolean_witness :
  Device.tags
    (rr_device
       (readLoop (collab := scripted true [Resolved (Some oneCoilOn)])
          ∅ ∅ 0%nat (sampleDevice "d1" true [coilAsBoolean]))) !! 0%nat
  = Some (Tag.setCurrentValue coilAsBoolean (JBool true)).
Proof.
  refine (proj2 (bit_read_writes_boolean
                   (collab := scripted true [Resolved (Some oneCoilOn)])
                   ∅ ∅ 0%nat (sampleDevice "d1" true [coilAsBoolean])
                   [] [] coilAsBoolean Coils 1%Z true (tail oneCoilOn) 1%nat
                   _ _ _ _ _ _));
    solve [reflexivity | discriminate].
Defined.

(** C1 fails on a coil tag declared int32: the coil that is on is read,
    and the value written to the tag is the number 65536, not a boolean. *)
Lemma coil_declared_int32_gets_number :
  Tag.currentValue
    <$> Device.tags
          (rr_device
             (readDeviceData (collab := scripted true [Resolved (Some oneCoilOn)])
                {["d1" := 0%nat]} ∅ (sampleDevice "d1" true [coilAsInt32])))
  = [JNum 65536]
  /\ forall b : bool, JNum 65536 <> JBool b.
Proof. split; [by vm_compute | discriminate]. Qed.

(** ** A read that fails in the middle of a cycle *)

Section ReadFailure.
Context {collab : Collaborators}.

(** Every tag with a known register type costs one read, whatever
    happened to the tags before it. *)
Lemma pollTag_reads id vars (c : Client) (tag : Tag.t) :
  length (List.filter isRead (ps_events (pollTag id vars c tag)))
  = if isReadable tag then 1%nat else 0%nat.
Proof.
  unfold pollTag, issueRead, isReadable, isRegisterTag, isBitTag.
  destruct (String.eqb (Tag.registerType tag) "holding");
    [|destruct (String.eqb (Tag.registerType tag) "input");
      [|destruct (String.eqb (Tag.registerType tag) "coil");
        [|destruct (String.eqb (Tag.registerType tag) "discrete")]]];
    cbn [orb]; try done;
    match goal with
    | |- context [match ?r with (_, _) => _ end] =>
        destruct r as [[err|[data|]] c']
    end; cbn; try done;
    (destruct (convertModbusData _ _); cbn; try done;
     destruct (vars ≫= _); [destruct (variantThrows _ _)|]; done).
Qed.

Lemma pollTags_reads id vars (c : Client) conn (tags : list Tag.t) :
  length (List.filter isRead (pl_events (pollTags id vars c conn tags)))
  = length (List.filter isReadable tags).
Proof.
  revert c conn. induction tags as [|tag tags IH]; intros c conn; cbn.
  - done.
  - rewrite List.filter_app, length_app, pollTag_reads, IH.
    by destruct (isReadable tag).
Qed.
End ReadFailure.

(** ** connectToDevice *)

(** C7, as the code has it: [connectToDevice] always returns a boolean
    (it is total: every call that can fail is inside its [try]).  For a
    device with a client in [modbusClients]: when the device is already
    connected it returns true and touches neither the client nor the
    device; otherwise it returns whether the transport call succeeded,
    and the device's [connected] flag is that same boolean, so a failed
    connect returns false and leaves the device disconnected.  For a
    device without a client it returns false and does nothing, connected
    or not. *)
Theorem connectToDevice_contract {collab : Collaborators}
    (mc : gmap string Client) (d : Device.t) :
  (mc !! Device.id d = None ->
   connectToDevice mc d = mkConnectResult false d mc [])
  /\ (forall client : Client,
        mc !! Device.id d = Some client ->
        (Device.connected d = true ->
         connectToDevice mc d = mkConnectResult true d mc [])
        /\ (Device.connected d = false ->
            cr_returned (connectToDevice mc d) = (openTransport client d).1.1
            /\ Device.connected (cr_device (connectToDevice mc d))
               = cr_returned (connectToDevice mc d)
            /\ ((openTransport client d).1.1 = false ->
                cr_returned (connectToDevice mc d) = false
                /\ Device.connected (cr_device (connectToDevice mc d)) = false))).
Proof.
  split.
  - intros Hnone. unfold connectToDevice. by rewrite Hnone.
  - intros client Hsome. unfold connectToDevice. rewrite Hsome. split.
    + by intros ->.
    + intros ->. destruct (openTransport client d) as [[[] c'] evs]; cbn.
      * repeat split; done.
      * repeat split; done.
Qed.

Lemma connectToDevice_contract_witness :
  connectToDevice (collab := scripted false []) {["d1" := 0%nat]}
    (sampleDevice "d1" true [holdingA])
  = mkConnectResult true (sampleDevice "d1" true [holdingA]) {["d1" := 0%nat]} []
  /\ cr_returned
       (connectToDevice (collab := scripted false []) {["d1" := 0%nat]}
          (sampleDevice "d1" false [holdingA]))
     = false.
Proof.
  split.
  - refine (proj1 (proj2 (connectToDevice_contract (collab := scripted false [])
                            {["d1" := 0%nat]} (sampleDevice "d1" true [holdingA]))
                     0%nat _) _); reflexivity.
  - destruct (connectToDevice_contract (collab := scripted false [])
                {["d1" := 0%nat]} (sampleDevice "d1" false [holdingA]))
      as [_ Hclient].
    destruct (Hclient 0%nat eq_refl) as [_ Hdisconnected].
    destruct (Hdisconnected eq_refl) as (_ & _ & Hfailure).
    apply Hfailure. reflexivity.
Defined.

(** C7 fails on a registered device that is connected but has no client:
    after two devices were posted under the id d1, the second polled, and
    d1 removed, the registry holds one device, connected, and
    [connectToDevice] returns false for it. *)
Lemma connected_without_client_gets_false :
  Device.connected <$> registry sharedIdRemoved = [true]
  /\ (fun d => cr_returned (connectToDevice (modbusClients sharedIdRemoved) d))
       <$> registry sharedIdRemoved
     = [false].
Proof. split; by vm_compute. Qed.

(** ** Well-formed states *)

Section WellFormed.
Context {collab : Collaborators}.

Lemma wellFormed_spec (s : System) :
  wellFormed s = true <-> Forall (fun a => a < length (objects s)) (devices s).
Proof.
  unfold wellFormed. rewrite List.forallb_forall, Forall_forall.
  split; intros H a Ha.
  - apply Nat.ltb_lt, H. by apply list_elem_of_In.
  - apply Nat.ltb_lt, H. by apply list_elem_of_In.
Qed.

Lemma readDeviceData_same_id mc vars (d : Device.t) :
  Device.id (rr_device (readDeviceData mc vars d)) = Device.id d.
Proof.
  unfold readDeviceData, readLoop.
  pose proof (connectToDevice_keeps_tags mc d) as [_ Hid].
  destruct (mc !! Device.id d); [|done].
  destruct (Device.connected d); [done|].
  destruct (cr_returned _); [|done].
  by destruct (cr_clients _ !! _).
Qed.

(** No handler and no callback leaves an entry of [devices] dangling. *)
Lemma step_wellFormed (s : System) (a : Action) :
  wellFormed s = true -> wellFormed (step s a).1 = true.
Proof.
  rewrite !wellFormed_spec. intros Hwf.
  destruct a as [body now uaFails|deviceId|k|a]; cbn.
  - unfold postDevice, initializeDevice.
    destruct (invalidBody body); [done|]. cbn [opcuaVariables].
    destruct (initializeOPCUADevice _ _ _) as [[vars threw] evs].
    destruct threw; cbn; rewrite length_app; cbn;
      (apply Forall_app; split;
       [eapply Forall_impl; [exact Hwf|]; cbn; lia
       | repeat constructor; lia]).
  - unfold deleteDevice.
    destruct (findIndex _ _ _) as [index|]; [|done].
    destruct (removeDeviceVariables _ _) as [vars evs].
    destruct (modbusClients s !! deviceId); cbn;
      (apply Forall_forall; intros x Hx%list_elem_of_delete_inv;
       by apply (proj1 (Forall_forall _ _) Hwf)).
  - unfold tick.
    destruct (timers s !! k) as [a|]; [|done].
    destruct (objects s !! a) as [d|]; [|done].
    cbn. by rewrite length_insert.
  - unfold clientEvent.
    destruct (objects s !! a) as [d|]; [|done].
    cbn. by rewrite length_insert.
Qed.

Lemma run_wellFormed (s : System) (actions : list Action) :
  wellFormed s = true -> wellFormed (run s actions).1 = true.
Proof.
  revert s. induction actions as [|a actions IH]; intros s Hwf; cbn; [done|].
  by apply IH, step_wellFormed.
Qed.

(** Every state the server gets to from its start is well formed. *)
Lemma reachable_wellFormed (actions : list Action) :
  wellFormed (run initialSystem actions).1 = true.
Proof. by apply run_wellFormed. Qed.
End WellFormed.

(** ** The registry under POST *)

Section RegistryFacts.
Context {collab : Collaborators}.


(** The [devices] array after a push, dereferenced in the grown store. *)
Lemma registry_push (objs : list Device.t) (devs : list nat) (device : Device.t) :
  forallb (fun a => a <? length objs) devs = true ->
  omap (fun a => (objs ++ [device]) !! a) (devs ++ [length objs])
  = omap (fun a => objs !! a) devs ++ [device].
Proof.
  intros Hwf. rewrite omap_app. f_equal.
  - induction devs as [|a devs IH]; [done|].
    cbn in Hwf. apply andb_true_iff in Hwf as [Ha Hwf].
    apply Nat.ltb_lt in Ha. cbn.
    rewrite lookup_app_l by done. rewrite IH by done. done.
  - cbn. rewrite lookup_app_r by done. by rewrite Nat.sub_diag.
Qed.

(** A body that is not rejected is pushed, whatever [initializeDevice]
    does afterwards. *)
Lemma postDevice_valid (s : System) (body : Body.t) now uaFails :
  wellFormed s = true ->
  invalidBody body = false ->
  registry (postDevice s body now uaFails).1.1
  = registry s ++ [deviceOfBody body now]
  /\ (postDevice s body now uaFails).1.2 <> BadRequest400
  /\ (uaFails = None -> (postDevice s body now uaFails).1.2 = Ok200).
Proof.
  intros Hwf Hvalid. unfold postDevice, initializeDevice. rewrite Hvalid.
  cbn [opcuaVariables].
  destruct (initializeOPCUADevice uaFails (deviceOfBody body now)
              (opcuaVariables s)) as [[vars threw] evs] eqn:Hinit.
  assert (Hthrew : uaFails = None -> threw = false).
  { intros ->. unfold initializeOPCUADevice in Hinit.
    injection Hinit as _ <- _. apply bool_decide_eq_false. lia. }
  destruct threw; cbn; (split; [by apply registry_push|]); split; try done.
  intros Hnone. by specialize (Hthrew Hnone).
Qed.

Lemma postDevice_invalid (s : System) (body : Body.t) now uaFails :
  invalidBody body = true ->
  postDevice s body now uaFails = (s, BadRequest400, []).
Proof. intros Hinvalid. unfold postDevice. by rewrite Hinvalid. Qed.

Lemma invalidBody_spec (body : Body.t) :
  invalidBody body = true
  <-> Js.truthyStr (Body.name body) = false
      \/ Js.truthyStr (Body.type body) = false
      \/ Body.tags body = None.
Proof.
  unfold invalidBody.
  destruct (Js.truthyStr (Body.name body)), (Js.truthyStr (Body.type body)),
    (Body.tags body) as [tags|]; cbn; try (intuition congruence).
  all: rewrite ?bool_decide_eq_true_2 by eauto; cbn; intuition congruence.
Qed.
End RegistryFacts.

(** C3, as the code has it: a POST whose id is already in the registry
    is treated like any other.  When the body has a name, a type and a
    tags array, the response is not the validation error, and the new
    device is pushed behind the devices already there, which stay as
    they were, so that the registry holds the id at least twice; the POST
    is rejected with the validation error only for a body without a name,
    a type or a tags array, and then nothing changes. *)
Theorem post_of_present_id {collab : Collaborators}
    (s : System) (body : Body.t) (now : string) (uaFails : option nat) :
  wellFormed s = true ->
  (exists d, d ∈ registry s /\ Device.id d = assignId body now) ->
  (invalidBody body = false ->
   (postDevice s body now uaFails).1.2 <> BadRequest400
   /\ registry (postDevice s body now uaFails).1.1
      = registry s ++ [deviceOfBody body now]
   /\ 2 <= length (List.filter
                     (fun d => String.eqb (Device.id d) (assignId body now))
                     (registry (postDevice s body now uaFails).1.1)))
  /\ (invalidBody body = true ->
      postDevice s body now uaFails = (s, BadRequest400, [])).
Proof.
  intros Hwf (d & Hd & Hid). split.
  - intros Hvalid.
    destruct (postDevice_valid s body now uaFails Hwf Hvalid) as (Hreg & ? & _).
    repeat split; [done..|].
    rewrite Hreg, List.filter_app, length_app. cbn.
    rewrite String.eqb_refl. cbn.
    assert (Hin : In d (List.filter
                          (fun d => String.eqb (Device.id d) (assignId body now))
                          (registry s))).
    { apply List.filter_In. split; [by apply list_elem_of_In|].
      by apply String.eqb_eq. }
    destruct (List.filter _ (registry s)); [done|]. cbn. lia.
  - apply postDevice_invalid.
Qed.

Lemma post_of_present_id_witness :
  registry (postDevice oneDevice (sampleBody "d1" [holdingB]) "1" None).1.1
  = registry oneDevice ++ [deviceOfBody (sampleBody "d1" [holdingB]) "1"].
Proof.
  destruct (post_of_present_id oneDevice (sampleBody "d1" [holdingB]) "1" None)
    as [Hvalid _].
  - reflexivity.
  - exists (deviceOfBody (sampleBody "d1" [holdingA]) "0").
    split; [|reflexivity]. vm_compute. apply list_elem_of_here.
  - apply Hvalid. reflexivity.
Defined.

(** C3 fails: a second POST under the id d1 is answered with success, or
    with the server error when the address space refuses a variable, never
    with the validation error, and either way the registry has grown to
    two devices with the id d1. *)
Lemma duplicate_id_is_added :
  (postDevice oneDevice (sampleBody "d1" [holdingA]) "1" None).1.2 = Ok200
  /\ Device.id
       <$> registry (postDevice oneDevice (sampleBody "d1" [holdingA]) "1" None).1.1
     = ["d1"; "d1"]
  /\ (postDevice oneDevice (sampleBody "d1" [holdingA]) "1" (Some 0%nat)).1.2
     = Error500
  /\ Device.id
       <$> registry
             (postDevice oneDevice (sampleBody "d1" [holdingA]) "1" (Some 0%nat)).1.1
     = ["d1"; "d1"]
  /\ Device.id <$> registry oneDevice = ["d1"].
Proof. repeat split; by vm_compute. Qed.

(** C6, as the code has it: a device definition is rejected with the
    validation error exactly when its name or its type is missing or
    empty, or its tags are missing or not an array, and a rejected
    definition changes nothing; every other definition, whatever its tag
    list (empty, or with tags of one name), is pushed into the registry
    with that tag list, and is answered with success unless the address
    space throws. *)
Theorem post_validation {collab : Collaborators}
    (s : System) (body : Body.t) (now : string) (uaFails : option nat) :
  wellFormed s = true ->
  ((postDevice s body now uaFails).1.2 = BadRequest400
   <-> Js.truthyStr (Body.name body) = false
       \/ Js.truthyStr (Body.type body) = false
       \/ Body.tags body = None)
  /\ ((postDevice s body now uaFails).1.2 = BadRequest400 ->
      (postDevice s body now uaFails).1.1 = s)
  /\ (forall tags : list Tag.t,
        Js.truthyStr (Body.name body) = true ->
        Js.truthyStr (Body.type body) = true ->
        Body.tags body = Some tags ->
        registry (postDevice s body now uaFails).1.1
        = registry s ++ [deviceOfBody body now]
        /\ Device.tags (deviceOfBody body now) = tags
        /\ (uaFails = None -> (postDevice s body now uaFails).1.2 = Ok200)).
Proof.
  intros Hwf.
  destruct (invalidBody body) eqn:Hinv.
  - rewrite (postDevice_invalid s body now uaFails Hinv). cbn.
    apply invalidBody_spec in Hinv. split; [done|]. split; [done|].
    intros tags Hn Ht Htags. destruct Hinv as [?|[?|?]]; congruence.
  - destruct (postDevice_valid s body now uaFails Hwf Hinv) as (Hreg & Hne & Hok).
    assert (Hnot : ~ (Js.truthyStr (Body.name body) = false
                      \/ Js.truthyStr (Body.type body) = false
                      \/ Body.tags body = None)).
    { intros H. apply invalidBody_spec in H. congruence. }
    split; [done|]. split; [done|].
    intros tags _ _ Htags. split; [done|]. split; [|done].
    unfold deviceOfBody. cbn. by rewrite Htags.
Qed.

Lemma post_validation_witness :
  registry (postDevice oneDevice (sampleBody "d2" []) "1" None).1.1
  = registry oneDevice ++ [deviceOfBody (sampleBody "d2" []) "1"].
Proof.
  destruct (post_validation oneDevice (sampleBody "d2" []) "1" None eq_refl)
    as (_ & _ & Haccepted).
  destruct (Haccepted [] eq_refl eq_refl eq_refl) as [Hregistry _].
  exact Hregistry.
Defined.

(** C6 fails: a device with no tags is answered with success and is in
    the registry; a device with two tags of one name is answered with
    success, or with the server error when the address space refuses the
    second variable, and is in the registry either way. *)
Lemma empty_and_repeated_tags_are_added :
  (postDevice oneDevice (sampleBody "d2" []) "1" None).1.2 = Ok200
  /\ Device.id
       <$> registry (postDevice oneDevice (sampleBody "d2" []) "1" None).1.1
     = ["d1"; "d2"]
  /\ (postDevice oneDevice (sampleBody "d3" [holdingA; holdingA]) "1" None).1.2
     = Ok200
  /\ (fun d => (Device.id d, Tag.name <$> Device.tags d))
       <$> registry
             (postDevice oneDevice (sampleBody "d3" [holdingA; holdingA]) "1"
                None).1.1
     = [("d1", ["a"]); ("d3", ["a"; "a"])]
  /\ (postDevice oneDevice (sampleBody "d3" [holdingA; holdingA]) "1"
        (Some 1%nat)).1.2
     = Error500
  /\ (fun d => (Device.id d, Tag.name <$> Device.tags d))
       <$> registry
             (postDevice oneDevice (sampleBody "d3" [holdingA; holdingA]) "1"
                (Some 1%nat)).1.1
     = [("d1", ["a"]); ("d3", ["a"; "a"])].
Proof. repeat split; by vm_compute. Qed.

(** ** Removal *)

Section RemovalFacts.
Context {collab : Collaborators}.
Implicit Types (s : System) (id did : string).

(** The events of an iteration carry the id of the device polled. *)
Lemma pollTag_quiet id did vars (c : Client) (tag : Tag.t) :
  String.eqb did id = false ->
  quiet id (ps_events (pollTag did vars c tag)).
Proof.
  intros Hne. unfold pollTag.
  destruct (issueRead c tag) as [[[kind n] [[err|[data|]] c']]|]; cbn;
    repeat constructor; cbn; try done.
  destruct (convertModbusData data (Tag.dataType tag)) as [value|]; cbn;
    [|by repeat constructor].
  destruct (vars ≫= _); [destruct (variantThrows _ _)|]; cbn;
    by repeat constructor.
Qed.

Lemma pollTags_quiet id did vars (c : Client) conn (tags : list Tag.t) :
  String.eqb did id = false ->
  quiet id (pl_events (pollTags did vars c conn tags)).
Proof.
  intros Hne. revert c conn.
  induction tags as [|tag tags IH]; intros c conn; cbn.
  - constructor.
  - apply Forall_app. split; [by apply pollTag_quiet | apply IH].
Qed.

Lemma connectToDevice_quiet id mc (d : Device.t) :
  String.eqb (Device.id d) id = false ->
  quiet id (cr_events (connectToDevice mc d)).
Proof.
  intros Hne. unfold connectToDevice, openTransport.
  destruct (mc !! Device.id d); [|constructor].
  destruct (Device.connected d); [constructor|].
  destruct (String.eqb (Device.type d) "tcp").
  { destruct (connectTCP _ _ _) as [[] ?]; cbn; by repeat constructor. }
  destruct (String.eqb (Device.type d) "rtu").
  { destruct (connectRTUBuffered _ _ _) as [[] ?]; cbn; by repeat constructor. }
  cbn. by repeat constructor.
Qed.

Lemma connectToDevice_clients id mc (d : Device.t) :
  String.eqb (Device.id d) id = false ->
  cr_clients (connectToDevice mc d) !! id = mc !! id.
Proof.
  intros Hne%String.eqb_neq. unfold connectToDevice.
  destruct (mc !! Device.id d); [|done].
  destruct (Device.connected d); [done|].
  destruct (openTransport _ _) as [[[] ?] ?]; cbn; by rewrite lookup_insert_ne.
Qed.





(** What a successful DELETE leaves and emits. *)
Lemma deleteDevice_ok s id s' evs :
  deleteDevice s id = (s', Ok200, evs) ->
  modbusClients s' !! id = None
  /\ opcuaVariables s' !! id = None
  /\ List.filter (isRemoval id) evs = [ERemoveDeviceVariables id]
  /\ objects s' = objects s /\ timers s' = timers s.
Proof.
  unfold deleteDevice, removeDeviceVariables.
  destruct (findIndex _ _ _); [|done].
  assert (Hdisp : forall variables : JsMap.t string,
             List.filter (isRemoval id)
               ((fun kv : string * string => EDispose kv.2) <$> variables) = []).
  { induction variables as [|kv variables IH]; [done | exact IH]. }
  destruct (opcuaVariables s !! id) as [variables|] eqn:Hv;
    destruct (modbusClients s !! id) eqn:Hc;
    intros [= <- <-]; cbn; rewrite ?String.eqb_refl, ?List.filter_app, ?Hdisp;
    rewrite ?lookup_delete_eq; done.
Qed.
End RemovalFacts.




(** ** The snapshot of values *)

Section SnapshotFacts.
Context {A V : Type}.

(** In an object filled by assignments in a loop, a key holds what its
    last assignment gave it. *)
Lemma foldl_setProperty_kept (key : A -> string) (val : A -> V) (l : list A)
    (o : gmap string V) (k : string) (v : V) :
  o !! k = Some v ->
  Forall (fun y => key y <> k) l ->
  foldl (fun o y => setProperty o (key y) (val y)) o l !! k = Some v.
Proof.
  revert o. induction l as [|y l IH]; intros o Ho Hl; cbn; [done|].
  apply Forall_cons in Hl as [Hy Hl].
  apply IH; [|done]. unfold setProperty.
  destruct (String.eqb (key y) "__proto__"); [done|].
  by rewrite lookup_insert_ne.
Qed.

Lemma foldl_setProperty_last (key : A -> string) (val : A -> V)
    (pre post : list A) (x : A) (o : gmap string V) :
  key x <> "__proto__" ->
  Forall (fun y => key y <> key x) post ->
  foldl (fun o y => setProperty o (key y) (val y)) o (pre ++ x :: post) !! key x
  = Some (val x).
Proof.
  intros Hkey Hpost. rewrite foldl_app. cbn.
  apply foldl_setProperty_kept; [|done]. unfold setProperty.
  apply String.eqb_neq in Hkey as ->. apply lookup_insert_eq.
Qed.
End SnapshotFacts.

(** C10, as the code has it: the snapshot object keeps one entry for
    each device id and, in it, one for each tag name: those of the last
    device of an id and of the last tag of a name, the key __proto__ apart.
    A tag that has such an entry and whose currentValue is falsy is
    reported as the number 0; undefined, false and 0 are falsy, so a tag
    never decoded, a tag decoded to false and a tag decoded to 0 are all
    reported as 0. *)
Theorem falsy_values_reported_as_zero {collab : Collaborators}
    (s : System) (pre post : list Device.t) (d : Device.t)
    (tpre tpost : list Tag.t) (tag : Tag.t) :
  registry s = pre ++ d :: post ->
  Forall (fun d' => Device.id d' <> Device.id d) post ->
  Device.tags d = tpre ++ tag :: tpost ->
  Forall (fun tag' => Tag.name tag' <> Tag.name tag) tpost ->
  Device.id d <> "__proto__" ->
  Tag.name tag <> "__proto__" ->
  Js.truthy (Tag.currentValue tag) = false ->
  (exists values : gmap string JsValue,
      getValues s !! Device.id d = Some (Device.name d, values)
      /\ values !! Tag.name tag = Some (JNum 0))
  /\ Js.truthy JUndefined = false
  /\ Js.truthy (JBool false) = false
  /\ Js.truthy (JNum 0) = false.
Proof.
  intros Hreg Hpost Htags Htpost Hid Hname Hfalsy. split; [|done].
  exists (tagValues (Device.tags d)). split.
  - unfold getValues. rewrite Hreg.
    by apply (foldl_setProperty_last Device.id
                (fun d => (Device.name d, tagValues (Device.tags d)))).
  - unfold tagValues. rewrite Htags.
    rewrite (foldl_setProperty_last Tag.name reportedValue) by done.
    unfold reportedValue, Js.orElse. by rewrite Hfalsy.
Qed.

Lemma falsy_values_reported_as_zero_witness :
  exists values : gmap string JsValue,
    getValues coilOff !! "d1" = Some ("plc", values)
    /\ values !! "run" = Some (JNum 0).
Proof.
  refine (proj1 (falsy_values_reported_as_zero coilOff [] []
                   (sampleDevice "d1" true
                      [Tag.setCurrentValue coilAsBoolean (JBool false)])
                   [] [] (Tag.setCurrentValue coilAsBoolean (JBool false))
                   _ _ _ _ _ _ _));
    solve [reflexivity | constructor | discriminate].
Defined.

(** C10 fails for a tag of a device that a later device of the same id
    hides: after two devices were posted under the id d1, the first with
    the tag a and the second with the tag b, the tag a of the first is in
    the registry, never decoded, and the snapshot has no value for it. *)
Lemma hidden_tag_is_not_reported :
  (fun d => (Device.id d,
             (fun tag => (Tag.name tag, Js.truthy (Tag.currentValue tag)))
               <$> Device.tags d))
    <$> registry sharedIdPosted
  = [("d1", [("a", false)]); ("d1", [("b", false)])]
  /\ getValues sharedIdPosted !! "d1" = Some ("plc", {["b" := JNum 0]})
  /\ ({["b" := JNum 0]} : gmap string JsValue) !! "a" = None.
Proof. repeat split; by vm_compute. Qed.

(** * Further properties of the code *)

(** ** Register codec: the float case, short replies, exceptions *)

Section CodecMore.
Local Open Scope Z_scope.

Lemma writeUInt16BE_word (buf : Buffer.t) (w : Z) (offset : nat) :
  0 <= w < 65536 ->
  Buffer.writeUInt16BE buf (Some (Word w)) offset
  = Normal (<[S offset := w mod 256]> (<[offset := w / 256]> buf)).
Proof.
  intros Hw. unfold Buffer.writeUInt16BE. cbn [Js.toNumber].
  destruct (Z.ltb_spec 65535 w); [lia|].
  destruct (Z.ltb_spec w 0); [lia|]. cbn [orb].
  change 0xff with (Z.ones 8). rewrite !Z.land_ones by lia.
  rewrite Z.shiftr_div_pow2 by lia. change (2 ^ 8) with 256.
  rewrite (Z.mod_small (w / 256)); [done|].
  split; [apply Z.div_pos; lia | apply Z.div_lt_upper_bound; lia].
Qed.

(** A write of an element that is not a number out of range succeeds. *)
Lemma writeUInt16BE_normal (buf : Buffer.t) (x : option RawItem) (offset : nat) :
  (forall w, x = Some (Word w) -> 0 <= w < 65536) ->
  exists buf', Buffer.writeUInt16BE buf x offset = Normal buf'.
Proof.
  intros Hx. destruct x as [[w|[]]|]; try (cbn; eauto; fail).
  rewrite writeUInt16BE_word by auto. eauto.
Qed.
End CodecMore.

(** X1: two 16-bit words decode as float to the single-precision value
    whose bit pattern has the first word as its high half and the second
    as its low half. *)
Theorem convert_float_big_endian (w0 w1 : Z) (rest : list RawItem) :
  (0 <= w0 < 65536)%Z -> (0 <= w1 < 65536)%Z ->
  convertModbusData (Word w0 :: Word w1 :: rest) "float"
  = Normal (JFloat (w0 * 65536 + w1)%Z).
Proof.
  intros H0 H1. unfold convertModbusData. cbn [String.eqb Ascii.eqb Bool.eqb].
  cbn [lookup list_lookup].
  rewrite writeUInt16BE_word by done. cbn [Buffer.alloc replicate].
  cbn [insert list_insert].
  rewrite writeUInt16BE_word by done. cbn [insert list_insert].
  unfold Buffer.readFloatBE, Buffer.readUInt32BE. cbn [lookup list_lookup default].
  do 2 f_equal. change (2 ^ 24)%Z with 16777216%Z.
  change (2 ^ 16)%Z with 65536%Z. change (2 ^ 8)%Z with 256%Z.
  unfold id. Z.to_euclidean_division_equations. lia.
Qed.

Lemma convert_float_big_endian_witness :
  convertModbusData [Word 0x4248; Word 0x0001] "float"
  = Normal (JFloat (0x4248 * 65536 + 0x0001)%Z).
Proof. apply (convert_float_big_endian 0x4248 0x0001 []); lia. Defined.

(** X2: decoding returns a value, rather than throwing, exactly when
    the dataType is not float or neither of the first two elements is a
    number outside 0..65535; so a reply made of 16-bit words or of bits
    always decodes. *)
Theorem convert_throws_only_out_of_range (data : list RawItem) (dataType : string) :
  (exists value, convertModbusData data dataType = Normal value)
  <-> (dataType <> "float"
       \/ forall i w, (i < 2)%nat -> data !! i = Some (Word w) ->
                      (0 <= w < 65536)%Z).
Proof.
  split.
  - intros [value Hvalue].
    destruct (decide (dataType = "float")) as [->|]; [right | by left].
    intros i w Hi Hw. unfold convertModbusData in Hvalue.
    cbn [String.eqb Ascii.eqb Bool.eqb] in Hvalue.
    assert (Hthrow : forall buf x off,
               x = Some (Word w) -> ~ (0 <= w < 65536)%Z ->
               Buffer.writeUInt16BE buf x off = Thrown "ERR_OUT_OF_RANGE").
    { intros buf x off -> Hout. unfold Buffer.writeUInt16BE. cbn.
      destruct (Z.ltb_spec 65535 w), (Z.ltb_spec w 0); cbn; try done; lia. }
    destruct (decide (0 <= w < 65536)%Z) as [|Hout]; [done|exfalso].
    destruct i as [|[|i]]; [| |lia].
    + by rewrite (Hthrow _ _ _ Hw Hout) in Hvalue.
    + destruct (Buffer.writeUInt16BE (Buffer.alloc 4) (data !! 0%nat) 0);
        [|done].
      by rewrite (Hthrow _ _ _ Hw Hout) in Hvalue.
  - intros Hok. unfold convertModbusData.
    destruct (String.eqb dataType "float") eqn:Hf;
      [|repeat case_match; eauto].
    apply String.eqb_eq in Hf. destruct Hok as [?|Hrange]; [done|].
    destruct (writeUInt16BE_normal (Buffer.alloc 4) (data !! 0%nat) 0) as [b Hb].
    { intros w Hw. by apply (Hrange 0%nat); [lia|]. }
    rewrite Hb.
    destruct (writeUInt16BE_normal b (data !! 1%nat) 2) as [b' Hb'].
    { intros w Hw. by apply (Hrange 1%nat); [lia|]. }
    rewrite Hb'. eauto.
Qed.

(** X3: for int32 and uint32 alike, two 16-bit words decode to the number
    in the signed 32-bit range that is congruent modulo 2^32 to the
    combination of the words, so the words can be recovered from the
    value and different register contents give different values. *)
Theorem convert_32bit_twos_complement (w0 w1 : Z) (dataType : string) :
  dataType = "int32" \/ dataType = "uint32" ->
  (0 <= w0 < 65536)%Z -> (0 <= w1 < 65536)%Z ->
  exists v : Z,
    convertModbusData [Word w0; Word w1] dataType = Normal (JNum v)
    /\ (-2147483648 <= v < 2147483648)%Z
    /\ (v mod 4294967296 = w0 * 65536 + w1)%Z.
Proof.
  intros Hdt H0 H1. rewrite convert_32bit_words by done. cbv zeta.
  change (2 ^ 31)%Z with 2147483648%Z. change (2 ^ 32)%Z with 4294967296%Z.
  destruct (Z.ltb_spec (w0 * 65536 + w1) 2147483648).
  - eexists. split; [done|]. split; [lia|]. rewrite Z.mod_small; lia.
  - eexists. split; [done|]. split; [lia|].
    replace (w0 * 65536 + w1 - 4294967296)%Z
      with (w0 * 65536 + w1 + (-1) * 4294967296)%Z by lia.
    rewrite Z_mod_plus_full, Z.mod_small; lia.
Qed.

Lemma convert_32bit_twos_complement_witness :
  exists v : Z,
    convertModbusData [Word 65535; Word 65534] "int32" = Normal (JNum v)
    /\ (-2147483648 <= v < 2147483648)%Z
    /\ (v mod 4294967296 = 65535 * 65536 + 65534)%Z.
Proof.
  apply (convert_32bit_twos_complement 65535 65534 "int32"); [by left|lia..].
Defined.

(** X4: a reply with no element decodes, under every dataType, to a
    falsy value without throwing (undefined, NaN, false or the float
    +0), and a reply of a single word decodes to NaN as int32 and as
    uint32; the snapshot reports such a tag as 0. *)
Theorem convert_short_reply (dataType : string) (x : RawItem) :
  (exists value,
      convertModbusData [] dataType = Normal value
      /\ Js.truthy value = false
      /\ Js.orElse value (JNum 0) = JNum 0)
  /\ convertModbusData [x] "int32" = Normal JNaN
  /\ convertModbusData [x] "uint32" = Normal JNaN.
Proof.
  split; [|by destruct x as [w|[]]].
  unfold convertModbusData.
  destruct (String.eqb dataType "float");
    [|repeat case_match];
    (eexists; split; [reflexivity|]; split; reflexivity).
Qed.

(** ** The poll cycle: what it changes and what it leaves *)

Section CycleFacts.
Context {collab : Collaborators}.

Lemma sameTagConfig_refl (tag : Tag.t) : sameTagConfig tag tag.
Proof. by repeat split. Qed.

Lemma sameTagConfig_trans (t1 t2 t3 : Tag.t) :
  sameTagConfig t1 t2 -> sameTagConfig t2 t3 -> sameTagConfig t1 t3.
Proof. intros (?&?&?&?) (?&?&?&?). repeat split; congruence. Qed.

Lemma sameDeviceConfig_refl (d : Device.t) : sameDeviceConfig d d.
Proof.
  repeat split. apply Forall2_same_length_lookup. split; [done|].
  intros i x y Hx Hy. rewrite Hx in Hy. injection Hy as <-.
  apply sameTagConfig_refl.
Qed.

Lemma sameDeviceConfig_trans (d1 d2 d3 : Device.t) :
  sameDeviceConfig d1 d2 -> sameDeviceConfig d2 d3 -> sameDeviceConfig d1 d3.
Proof.
  intros (?&?&?&?&?&?&?&?&H12) (?&?&?&?&?&?&?&?&H23).
  repeat split; try congruence.
  revert H23. generalize (Device.tags d3).
  induction H12 as [|x y l k Hxy _ IH]; intros l3 H23; inversion H23; subst;
    constructor; eauto using sameTagConfig_trans.
Qed.

Lemma sameDeviceConfig_setConnected (d : Device.t) (b : bool) :
  sameDeviceConfig d (Device.setConnected d b).
Proof.
  destruct (sameDeviceConfig_refl d) as (?&?&?&?&?&?&?&?&?). by repeat split.
Qed.

Lemma pollTag_sameTagConfig id vars (c : Client) (tag : Tag.t) :
  sameTagConfig tag (ps_tag (pollTag id vars c tag)).
Proof.
  destruct (pollTag_same_tag id vars c tag) as [->|[value ->]];
    by repeat split.
Qed.

Lemma pollTags_sameTagConfig id vars (c : Client) conn (tags : list Tag.t) :
  Forall2 sameTagConfig tags (pl_tags (pollTags id vars c conn tags)).
Proof.
  revert c conn. induction tags as [|tag tags IH]; intros c conn; cbn.
  - constructor.
  - constructor; [apply pollTag_sameTagConfig | apply IH].
Qed.

Lemma readLoop_sameDeviceConfig mc ua (c : Client) (d : Device.t) :
  sameDeviceConfig d (rr_device (readLoop mc ua c d)).
Proof.
  unfold readLoop. cbn. repeat split. apply pollTags_sameTagConfig.
Qed.

Lemma connectToDevice_sameDeviceConfig mc (d : Device.t) :
  sameDeviceConfig d (cr_device (connectToDevice mc d)).
Proof.
  unfold connectToDevice.
  destruct (mc !! Device.id d); [|apply sameDeviceConfig_refl].
  destruct (Device.connected d); [apply sameDeviceConfig_refl|].
  destruct (openTransport _ _) as [[[] ?] ?]; apply sameDeviceConfig_setConnected.
Qed.

Lemma readDeviceData_sameDeviceConfig mc ua (d : Device.t) :
  sameDeviceConfig d (rr_device (readDeviceData mc ua d)).
Proof.
  unfold readDeviceData.
  destruct (mc !! Device.id d); [|apply sameDeviceConfig_refl].
  destruct (Device.connected d); [apply readLoop_sameDeviceConfig|].
  pose proof (connectToDevice_sameDeviceConfig mc d) as Hc.
  destruct (cr_returned _); [|done].
  destruct (cr_clients _ !! _); [|done]. cbn [rr_device].
  eapply sameDeviceConfig_trans; [exact Hc | apply readLoop_sameDeviceConfig].
Qed.

(** The [catch] block of an iteration ran exactly when the iteration
    closed the client. *)
Lemma pollTag_caught id vars (c : Client) (tag : Tag.t) :
  ps_caught (pollTag id vars c tag)
  = existsb isClose (ps_events (pollTag id vars c tag)).
Proof.
  unfold pollTag.
  destruct (issueRead c tag) as [[[kind n] [[err|[data|]] c']]|]; cbn; try done.
  destruct (convertModbusData data (Tag.dataType tag)) as [value|]; cbn; try done.
  destruct (vars ≫= _); [destruct (variantThrows _ _)|]; done.
Qed.

Lemma pollTags_connected id vars (c : Client) conn (tags : list Tag.t) :
  pl_connected (pollTags id vars c conn tags)
  = conn && negb (existsb isClose (pl_events (pollTags id vars c conn tags))).
Proof.
  revert c conn. induction tags as [|tag tags IH]; intros c conn; cbn.
  - by destruct conn.
  - rewrite IH, existsb_app, pollTag_caught.
    destruct (existsb isClose (ps_events _)); cbn; [|done].
    by destruct conn.
Qed.

Lemma openTransport_events (c : Client) (d : Device.t) :
  List.filter isRead (openTransport c d).2 = []
  /\ List.filter isTagValue (openTransport c d).2 = []
  /\ existsb isClose (openTransport c d).2 = false.
Proof.
  unfold openTransport. by repeat case_match.
Qed.
End CycleFacts.

(** X5: at the end of the loop over the tags the device is connected
    exactly when it was connected at the start and no iteration ended in
    the catch block, that is, no close of the client was issued. *)
Theorem loop_connected_iff_nothing_caught {collab : Collaborators}
    (mc : gmap string Client) (ua : gmap string (JsMap.t string))
    (c : Client) (d : Device.t) :
  Device.connected (rr_device (readLoop mc ua c d))
  = Device.connected d
    && negb (existsb isClose (rr_events (readLoop mc ua c d))).
Proof. unfold readLoop. cbn. apply pollTags_connected. Qed.

(** X6: a poll cycle changes nothing of a device but its connected flag
    and the currentValue of its tags: id, name, type, address, port,
    baud rate, unit id and poll interval stay, and the tags stay the same
    in number and order, each with its name, register type, address and
    dataType. *)
Theorem cycle_keeps_configuration {collab : Collaborators}
    (mc : gmap string Client) (ua : gmap string (JsMap.t string))
    (d : Device.t) :
  sameDeviceConfig d (rr_device (readDeviceData mc ua d))
  /\ length (Device.tags (rr_device (readDeviceData mc ua d)))
     = length (Device.tags d).
Proof.
  pose proof (readDeviceData_sameDeviceConfig mc ua d) as H.
  split; [done|].
  destruct H as (_&_&_&_&_&_&_&_&Htags).
  symmetry. by eapply Forall2_length.
Qed.

(** X7: in the loop, a tag whose read brings data that decodes gets the
    decoded value as its currentValue, under every register type and
    dataType, and the assignment is in the log; this holds also when the
    push to the OPC UA variable then throws. *)
Theorem decoded_value_is_written {collab : Collaborators}
    (mc : gmap string Client) (ua : gmap string (JsMap.t string))
    (c : Client) (d : Device.t) (pre post : list Tag.t) (tag : Tag.t)
    (kind : ReadKind) (n : Z) (data : list RawItem) (c' : Client)
    (value : JsValue) :
  Device.tags d = pre ++ tag :: post ->
  issueRead (pl_client (pollTags (Device.id d) (ua !! Device.id d) c
                          (Device.connected d) pre)) tag
  = Some (kind, n, (Resolved (Some data), c')) ->
  convertModbusData data (Tag.dataType tag) = Normal value ->
  Device.tags (rr_device (readLoop mc ua c d)) !! length pre
  = Some (Tag.setCurrentValue tag value)
  /\ ETagValue (Device.id d) (Tag.name tag) value
     ∈ rr_events (readLoop mc ua c d).
Proof.
  intros Htags Hread Hvalue. split.
  - rewrite (readLoop_tag_at mc ua c d pre tag post Htags).
    f_equal. by eapply pollTag_decoded.
  - unfold readLoop. cbn [rr_events]. rewrite Htags, pollTags_app.
    cbn [pl_events pollTags]. apply elem_of_app. right.
    apply elem_of_app. left.
    unfold pollTag. rewrite Hread, Hvalue.
    destruct (_ ≫= _); [destruct (variantThrows _ _)|]; cbn;
      apply list_elem_of_In; cbn; auto.
Qed.

(** X8: in the loop, a tag whose register type is none of holding,
    input, coil and discrete is passed over, and so is a tag whose read
    resolves without data: the tag object stays as it was. *)
Theorem skipped_tag_is_untouched {collab : Collaborators}
    (mc : gmap string Client) (ua : gmap string (JsMap.t string))
    (c : Client) (d : Device.t) (pre post : list Tag.t) (tag : Tag.t) :
  Device.tags d = pre ++ tag :: post ->
  (isReadable tag = false
   \/ exists kind n c',
       issueRead (pl_client (pollTags (Device.id d) (ua !! Device.id d) c
                               (Device.connected d) pre)) tag
       = Some (kind, n, (Resolved None, c'))) ->
  Device.tags (rr_device (readLoop mc ua c d)) !! length pre = Some tag.
Proof.
  intros Htags Hskip.
  rewrite (readLoop_tag_at mc ua c d pre tag post Htags). f_equal.
  unfold pollTag. destruct Hskip as [Hunread|(kind & n & c' & Hread)].
  - unfold issueRead. unfold isReadable, isRegisterTag, isBitTag in Hunread.
    apply orb_false_iff in Hunread as [[-> ->]%orb_false_iff [-> ->]%orb_false_iff].
    done.
  - by rewrite Hread.
Qed.

Lemma decoded_value_is_written_witness :
  Device.tags
    (rr_device
       (readLoop (collab := scripted true [Resolved (Some [Word 40000])])
          ∅ ∅ 0%nat
          (sampleDevice "d1" true [sampleTag "t" "input" "int16" 3])))
  !! 0%nat
  = Some (Tag.setCurrentValue (sampleTag "t" "input" "int16" 3) (JNum (-25536))).
Proof.
  refine (proj1 (decoded_value_is_written
                   (collab := scripted true [Resolved (Some [Word 40000])])
                   ∅ ∅ 0%nat
                   (sampleDevice "d1" true [sampleTag "t" "input" "int16" 3])
                   [] [] (sampleTag "t" "input" "int16" 3)
                   InputRegisters 1%Z [Word 40000] 1%nat (JNum (-25536))
                   _ _ _));
    reflexivity.
Defined.

Lemma skipped_tag_is_untouched_witness :
  Device.tags
    (rr_device
       (readLoop (collab := scripted true [Resolved (Some [Word 7])])
          ∅ ∅ 0%nat
          (sampleDevice "d1" true [sampleTag "t" "register" "int16" 3])))
  !! 0%nat
  = Some (sampleTag "t" "register" "int16" 3).
Proof.
  refine (skipped_tag_is_untouched
            (collab := scripted true [Resolved (Some [Word 7])])
            ∅ ∅ 0%nat
            (sampleDevice "d1" true [sampleTag "t" "register" "int16" 3])
            [] [] (sampleTag "t" "register" "int16" 3) _ _).
  - reflexivity.
  - left. reflexivity.
Defined.

(** X9: a poll cycle on a disconnected device whose connect fails makes
    that one connect attempt and nothing else: no read is issued, no tag
    is assigned, the tags are as before, the device is disconnected, and
    no other id's client is touched. *)
Theorem failed_connect_skips_cycle {collab : Collaborators}
    (mc : gmap string Client) (ua : gmap string (JsMap.t string))
    (d : Device.t) (c : Client) :
  mc !! Device.id d = Some c ->
  Device.connected d = false ->
  (openTransport c d).1.1 = false ->
  Device.connected (rr_device (readDeviceData mc ua d)) = false
  /\ Device.tags (rr_device (readDeviceData mc ua d)) = Device.tags d
  /\ rr_events (readDeviceData mc ua d) = (openTransport c d).2
  /\ List.filter isRead (rr_events (readDeviceData mc ua d)) = []
  /\ List.filter isTagValue (rr_events (readDeviceData mc ua d)) = []
  /\ forall id', id' <> Device.id d ->
       rr_clients (readDeviceData mc ua d) !! id' = mc !! id'.
Proof.
  intros Hc Hconn Hfail.
  destruct (openTransport_events c d) as (Hreads & Hvalues & _).
  unfold readDeviceData, connectToDevice. rewrite Hc, Hconn.
  destruct (openTransport c d) as [[ok c'] evs]. cbn in Hfail. subst ok. cbn.
  repeat split; try done.
  intros id' Hne. by rewrite lookup_insert_ne.
Qed.

Lemma failed_connect_skips_cycle_witness :
  rr_events
    (readDeviceData (collab := scripted false [Resolved (Some [Word 7])])
       {["d1" := 0%nat]} ∅ (sampleDevice "d1" false [holdingA]))
  = [EConnectTCP "d1" "10.0.0.1" 502].
Proof.
  refine (proj1 (proj2 (proj2
    (failed_connect_skips_cycle
       (collab := scripted false [Resolved (Some [Word 7])])
       {["d1" := 0%nat]} ∅ (sampleDevice "d1" false [holdingA]) 0%nat
       _ _ _)))); reflexivity.
Defined.

(** X10: a poll cycle on a disconnected device whose connect succeeds
    connects, sets the unit id ([deviceId], or 1 when it is missing or 0),
    marks the device connected, and then runs the loop over the tags on
    the client just connected, all in the same cycle. *)
Theorem connect_then_poll {collab : Collaborators}
    (mc : gmap string Client) (ua : gmap string (JsMap.t string))
    (d : Device.t) (c : Client) :
  mc !! Device.id d = Some c ->
  Device.connected d = false ->
  (openTransport c d).1.1 = true ->
  let unit := Js.orZ (Device.deviceId d) 1 in
  let c' := setID (openTransport c d).1.2 unit in
  let loop := readLoop (<[Device.id d := c']> mc) ua c'
                (Device.setConnected d true) in
  rr_device (readDeviceData mc ua d) = rr_device loop
  /\ rr_clients (readDeviceData mc ua d) = rr_clients loop
  /\ rr_events (readDeviceData mc ua d)
     = (openTransport c d).2 ++ [ESetID (Device.id d) unit] ++ rr_events loop.
Proof.
  intros Hc Hconn Hok unit c' loop. subst unit c' loop.
  unfold readDeviceData, connectToDevice. rewrite Hc, Hconn.
  destruct (openTransport c d) as [[ok c1] evs]. cbn in Hok. subst ok.
  cbn. rewrite lookup_insert_eq. cbn. by rewrite <- app_assoc.
Qed.

Lemma connect_then_poll_witness :
  rr_events
    (readDeviceData (collab := scripted true [Resolved (Some [Word 7])])
       {["d1" := 0%nat]} ∅ (sampleDevice "d1" false [holdingA]))
  = [EConnectTCP "d1" "10.0.0.1" 502; ESetID "d1" 1;
     ERead "d1" HoldingRegisters 5 1; ETagValue "d1" "a" (JNum 7)].
Proof.
  refine (proj2 (proj2
    (connect_then_poll (collab := scripted true [Resolved (Some [Word 7])])
       {["d1" := 0%nat]} ∅ (sampleDevice "d1" false [holdingA]) 0%nat
       _ _ _))); reflexivity.
Defined.

(** X11: a poll cycle of a device leaves the client of every other id as
    it was and does nothing in the name of another id: every connect,
    read and value it logs carries the device's own id. *)
Theorem cycle_touches_only_its_id {collab : Collaborators}
    (mc : gmap string Client) (ua : gmap string (JsMap.t string))
    (d : Device.t) (id' : string) :
  id' <> Device.id d ->
  rr_clients (readDeviceData mc ua d) !! id' = mc !! id'
  /\ Forall (fun ev => pollActivity id' ev = false)
       (rr_events (readDeviceData mc ua d)).
Proof.
  intros Hne.
  assert (Hid : String.eqb (Device.id d) id' = false)
    by (apply String.eqb_neq; congruence).
  pose proof (connectToDevice_quiet id' mc d Hid) as Hq.
  pose proof (connectToDevice_clients id' mc d Hid) as Hc.
  pose proof (connectToDevice_keeps_tags mc d) as [_ Hsame].
  unfold readDeviceData.
  destruct (mc !! Device.id d) as [c|]; [|by split].
  destruct (Device.connected d).
  { unfold readLoop. cbn. rewrite lookup_insert_ne by congruence.
    split; [done | by apply pollTags_quiet]. }
  destruct (cr_returned (connectToDevice mc d)); [|by split].
  destruct (cr_clients (connectToDevice mc d) !! Device.id d) as [c'|]; cbn;
    [|by split].
  rewrite Hsame, lookup_insert_ne by congruence. split; [done|].
  apply Forall_app. split; [done | by apply pollTags_quiet].
Qed.

Lemma cycle_touches_only_its_id_witness :
  rr_clients
    (readDeviceData (collab := scripted true [Resolved (Some [Word 7])])
       {["d1" := 0%nat; "d2" := 4%nat]} ∅ (sampleDevice "d1" false [holdingA]))
  !! "d2"
  = Some 4%nat.
Proof.
  refine (proj1 (cycle_touches_only_its_id
                   (collab := scripted true [Resolved (Some [Word 7])])
                   {["d1" := 0%nat; "d2" := 4%nat]} ∅
                   (sampleDevice "d1" false [holdingA]) "d2" _)).
  discriminate.
Defined.

(** ** DELETE and POST on the registry *)

Section DeleteFacts.
Context {collab : Collaborators}.

Lemma findIndex_None (objs : list Device.t) (devs : list nat) (id : string) :
  findIndex objs devs id = None
  <-> Forall (fun d => Device.id d <> id) (omap (fun a => objs !! a) devs).
Proof.
  induction devs as [|a devs IH]; cbn; [by split; [constructor|]|].
  destruct (objs !! a) as [d|]; cbn.
  - destruct (String.eqb_spec (Device.id d) id) as [Heq|Hne].
    + split; [done|]. by intros [? _]%Forall_cons.
    + rewrite Forall_cons, <- IH. destruct (findIndex objs devs id); cbn;
        split; try done; by intros [_ ?].
  - rewrite <- IH. by destruct (findIndex objs devs id).
Qed.

(** With every entry of [devices] referring to an object, the index found
    is the position of the first device of that id, and removing the entry
    at that index removes that device from the registry. *)
Lemma findIndex_Some (objs : list Device.t) (devs : list nat) (id : string)
    (index : nat) :
  Forall (fun a => a < length objs) devs ->
  findIndex objs devs id = Some index ->
  exists pre d post,
    omap (fun a => objs !! a) devs = pre ++ d :: post
    /\ Device.id d = id
    /\ Forall (fun d' => Device.id d' <> id) pre
    /\ length pre = index
    /\ omap (fun a => objs !! a) (delete index devs) = pre ++ post.
Proof.
  revert index. induction devs as [|a devs IH]; intros index Hwf Hfind;
    [done|].
  apply Forall_cons in Hwf as [Ha Hwf]. cbn in Hfind.
  destruct (lookup_lt_is_Some_2 objs a Ha) as [d Hd].
  rewrite Hd in Hfind. cbn. rewrite Hd.
  destruct (String.eqb_spec (Device.id d) id) as [Heq|Hne].
  - injection Hfind as <-. exists [], d, (omap (fun a => objs !! a) devs).
    by repeat split.
  - destruct (findIndex objs devs id) as [i|] eqn:Hi; [|done].
    injection Hfind as <-.
    destruct (IH i Hwf eq_refl) as (pre & d' & post & Hreg & Hid & Hpre & Hlen & Hdel).
    exists (d :: pre), d', post. cbn. rewrite Hd, Hreg, Hlen. cbn.
    repeat split; try done; [by constructor | f_equal; exact Hdel].
Qed.
End DeleteFacts.

(** X12: DELETE answers 404 exactly when no device of the registry has
    the id, and then it changes nothing and does nothing. *)
Theorem delete_unknown_id {collab : Collaborators} (s : System) (id : string) :
  ((deleteDevice s id).1.2 = NotFound404
   <-> Forall (fun d => Device.id d <> id) (registry s))
  /\ ((deleteDevice s id).1.2 = NotFound404 ->
      deleteDevice s id = (s, NotFound404, [])).
Proof.
  unfold registry. rewrite <- findIndex_None. unfold deleteDevice.
  destruct (findIndex (objects s) (devices s) id) as [index|]; [|done].
  destruct (removeDeviceVariables id (opcuaVariables s)) as [vars evs].
  destruct (modbusClients s !! id); by split.
Qed.

(** X13: a successful DELETE takes out of the registry the first device
    that has the id and no other: the devices before and after it stay,
    in their order, also those after it that have the same id. *)
Theorem delete_removes_first_match {collab : Collaborators}
    (s s' : System) (id : string) (evs : list Event) :
  wellFormed s = true ->
  deleteDevice s id = (s', Ok200, evs) ->
  exists pre d post,
    registry s = pre ++ d :: post
    /\ Device.id d = id
    /\ Forall (fun d' => Device.id d' <> id) pre
    /\ registry s' = pre ++ post.
Proof.
  intros Hwf%wellFormed_spec Hdel. unfold deleteDevice in Hdel.
  destruct (findIndex (objects s) (devices s) id) as [index|] eqn:Hfind;
    [|done].
  destruct (findIndex_Some _ _ _ _ Hwf Hfind)
    as (pre & d & post & Hreg & Hid & Hpre & _ & Hdel').
  exists pre, d, post. repeat split; try done.
  destruct (removeDeviceVariables id (opcuaVariables s)) as [vars evs0].
  destruct (modbusClients s !! id); injection Hdel as <- _; exact Hdel'.
Qed.

Lemma delete_removes_first_match_witness :
  exists pre d post,
    registry sharedIdPosted = pre ++ d :: post
    /\ Device.id d = "d1"
    /\ Forall (fun d' => Device.id d' <> "d1") pre
    /\ registry (deleteDevice sharedIdPosted "d1").1.1 = pre ++ post.
Proof.
  apply (delete_removes_first_match sharedIdPosted
           (deleteDevice sharedIdPosted "d1").1.1 "d1"
           (deleteDevice sharedIdPosted "d1").2);
    reflexivity.
Defined.

Section PostFacts.
Context {collab : Collaborators}.

Lemma JsMap_get_set_eq {V} (m : JsMap.t V) (k : string) (v : V) :
  JsMap.get (JsMap.set m k v) k = Some v.
Proof.
  induction m as [|[k' v'] m IH]; cbn.
  - by rewrite String.eqb_refl.
  - destruct (String.eqb k' k) eqn:Hk; cbn.
    + by rewrite String.eqb_refl.
    + by rewrite Hk.
Qed.

Lemma JsMap_get_set_ne {V} (m : JsMap.t V) (k k' : string) (v : V) :
  k <> k' -> JsMap.get (JsMap.set m k v) k' = JsMap.get m k'.
Proof.
  intros Hne. induction m as [|[k0 v0] m IH]; cbn.
  - by apply String.eqb_neq in Hne as ->.
  - destruct (String.eqb_spec k0 k) as [->|Hk0]; cbn.
    + by apply String.eqb_neq in Hne as ->.
    + by rewrite IH.
Qed.

(** The variable of a tag name, once registered under an id, is still
    there after more tags are registered under that id. *)
Lemma registerVariable_keeps id (vars : gmap string (JsMap.t string))
    (tag : Tag.t) (k : string) :
  (exists m, vars !! id = Some m /\ JsMap.get m k = Some (nodeIdOf id k)) ->
  exists m, registerVariable id vars tag !! id = Some m
            /\ JsMap.get m k = Some (nodeIdOf id k).
Proof.
  intros (m & Hm & Hk). unfold registerVariable, JsMap.t in *.
  rewrite Hm. cbn.
  eexists. split; [apply lookup_insert_eq|].
  destruct (decide (Tag.name tag = k)) as [<-|Hne].
  - apply JsMap_get_set_eq.
  - by rewrite JsMap_get_set_ne.
Qed.

Lemma registerVariables_all id (tags : list Tag.t)
    (vars : gmap string (JsMap.t string)) (tag : Tag.t) :
  tag ∈ tags ->
  exists m, foldl (registerVariable id) vars tags !! id = Some m
            /\ JsMap.get m (Tag.name tag) = Some (nodeIdOf id (Tag.name tag)).
Proof.
  assert (Hkeep : forall l vars k,
             (exists m, vars !! id = Some m
                        /\ JsMap.get m k = Some (nodeIdOf id k)) ->
             exists m, foldl (registerVariable id) vars l !! id = Some m
                       /\ JsMap.get m k = Some (nodeIdOf id k)).
  { induction l as [|t l IH]; intros vs k Hk; cbn; [done|].
    by apply IH, registerVariable_keeps. }
  revert vars. induction tags as [|t tags IH]; intros vars Hin.
  - by apply elem_of_nil in Hin.
  - cbn. apply elem_of_cons in Hin as [->|Hin]; [|by apply IH].
    apply Hkeep. unfold registerVariable.
    eexists. split; [apply lookup_insert_eq | apply JsMap_get_set_eq].
Qed.

Lemma registerVariables_other id id' (tags : list Tag.t)
    (vars : gmap string (JsMap.t string)) :
  id' <> id ->
  foldl (registerVariable id) vars tags !! id' = vars !! id'.
Proof.
  intros Hne. revert vars. induction tags as [|t tags IH]; intros vars; cbn;
    [done|].
  rewrite IH. unfold registerVariable. by rewrite lookup_insert_ne.
Qed.

(** In a grown store, the index found in the old [devices] array with a
    new entry at its end, for an id no old device has, is the new entry. *)
Lemma findIndex_fresh (objs : list Device.t) (devs : list nat) (d : Device.t) :
  Forall (fun a => a < length objs) devs ->
  Forall (fun d' => Device.id d' <> Device.id d)
    (omap (fun a => objs !! a) devs) ->
  findIndex (objs ++ [d]) (devs ++ [length objs]) (Device.id d)
  = Some (length devs).
Proof.
  induction devs as [|a devs IH]; intros Hwf Hfresh; cbn.
  - rewrite lookup_app_r by done. rewrite Nat.sub_diag. cbn.
    by rewrite String.eqb_refl.
  - apply Forall_cons in Hwf as [Ha Hwf].
    rewrite lookup_app_l by done.
    destruct (lookup_lt_is_Some_2 objs a Ha) as [d' Hd'].
    cbn in Hfresh. rewrite Hd' in *. cbn in Hfresh.
    apply Forall_cons in Hfresh as [Hne Hfresh].
    apply String.eqb_neq in Hne as ->. by rewrite IH.
Qed.

Lemma registry_old_entries (objs : list Device.t) (devs : list nat)
    (d : Device.t) :
  Forall (fun a => a < length objs) devs ->
  omap (fun a => (objs ++ [d]) !! a) devs = omap (fun a => objs !! a) devs.
Proof.
  induction 1 as [|a devs Ha _ IH]; cbn; [done|].
  by rewrite lookup_app_l, IH.
Qed.
(** What a POST answered with success leaves: the device object at the
    end of the store, its entry at the end of [devices], and a variable
    for each of its tags. *)
Lemma post_success_pollable_facts (s s' : System) (body : Body.t)
    (now : string) (uaFails : option nat) (evs : list Event) :
  postDevice s body now uaFails = (s', Ok200, evs) ->
  objects s' !! length (objects s) = Some (deviceOfBody body now)
  /\ devices s' = devices s ++ [length (objects s)]
  /\ (forall tag, tag ∈ Device.tags (deviceOfBody body now) ->
        exists variables,
          opcuaVariables s' !! Device.id (deviceOfBody body now) = Some variables
          /\ JsMap.get variables (Tag.name tag)
             = Some (nodeIdOf (Device.id (deviceOfBody body now)) (Tag.name tag))).
Proof.
  unfold postDevice, initializeDevice, initializeOPCUADevice, startDevicePolling.
  destruct (invalidBody body); [done|]. cbn [opcuaVariables].
  destruct (bool_decide _) eqn:Hthrew; [done|].
  apply bool_decide_eq_false in Hthrew.
  intros Heq. injection Heq as <- _. cbn.
  assert (Hall : match uaFails with
                 | Some k => take k (Device.tags (deviceOfBody body now))
                 | None => Device.tags (deviceOfBody body now)
                 end = Device.tags (deviceOfBody body now)).
  { destruct uaFails as [k|]; [|done]. apply take_ge.
    rewrite length_take in Hthrew. lia. }
  cbn in Hall. rewrite Hall.
  split; [by rewrite lookup_app_r, Nat.sub_diag|]. split; [done|].
  intros tag Htag. by apply registerVariables_all.
Qed.
End PostFacts.

(** X14: after a POST that is answered with success, the new device can
    be polled at once: its id has a fresh client, an interval is running
    on the new device object, and for each of its tags the variable
    s=<id>_<tag name> is registered under the id and the tag's name; no
    other id's client or variables are touched. *)
Theorem post_success_makes_pollable {collab : Collaborators}
    (s s' : System) (body : Body.t) (now : string) (uaFails : option nat)
    (evs : list Event) :
  postDevice s body now uaFails = (s', Ok200, evs) ->
  let device := deviceOfBody body now in
  modbusClients s' !! Device.id device = Some newClient
  /\ objects s' !! length (objects s) = Some device
  /\ timers s' = timers s ++ [length (objects s)]
  /\ (forall tag, tag ∈ Device.tags device ->
        exists variables,
          opcuaVariables s' !! Device.id device = Some variables
          /\ JsMap.get variables (Tag.name tag)
             = Some (nodeIdOf (Device.id device) (Tag.name tag)))
  /\ (forall id', id' <> Device.id device ->
        modbusClients s' !! id' = modbusClients s !! id'
        /\ opcuaVariables s' !! id' = opcuaVariables s !! id').
Proof.
  unfold postDevice, initializeDevice, initializeOPCUADevice, startDevicePolling.
  destruct (invalidBody body); [done|]. cbn [opcuaVariables].
  destruct (bool_decide _) eqn:Hthrew; [done|].
  apply bool_decide_eq_false in Hthrew.
  intros Heq. injection Heq as <- _. cbn.
  assert (Hall : match uaFails with
                 | Some k => take k (Device.tags (deviceOfBody body now))
                 | None => Device.tags (deviceOfBody body now)
                 end = Device.tags (deviceOfBody body now)).
  { destruct uaFails as [k|]; [|done]. apply take_ge.
    rewrite length_take in Hthrew. lia. }
  cbn in Hall. rewrite Hall.
  split; [apply lookup_insert_eq|].
  split; [by rewrite lookup_app_r, Nat.sub_diag|].
  split; [done|]. split.
  - intros tag Htag. by apply registerVariables_all.
  - intros id' Hne. split.
    + unfold initializeModbusClient. cbn. by rewrite lookup_insert_ne.
    + by apply registerVariables_other.
Qed.

Lemma post_success_makes_pollable_witness :
  modbusClients
    (postDevice oneDevice (sampleBody "d2" [holdingA; holdingB]) "1" None).1.1
  !! "d2"
  = Some 0%nat.
Proof.
  refine (proj1 (post_success_makes_pollable oneDevice
            (postDevice oneDevice (sampleBody "d2" [holdingA; holdingB]) "1"
               None).1.1
            (sampleBody "d2" [holdingA; holdingB]) "1" None
            (postDevice oneDevice (sampleBody "d2" [holdingA; holdingB]) "1"
               None).2 _)).
  reflexivity.
Defined.

(** X15: posting a device under an id that no registered device has and
    then deleting that id gives the registry back as it was, with no
    client and no variables left under the id; what stays behind is the
    interval started for the device, when the POST got that far. *)
Theorem post_then_delete_restores_registry {collab : Collaborators}
    (s : System) (body : Body.t) (now : string) (uaFails : option nat) :
  wellFormed s = true ->
  invalidBody body = false ->
  Forall (fun d => Device.id d <> assignId body now) (registry s) ->
  let posted := (postDevice s body now uaFails).1.1 in
  let deleted := deleteDevice posted (assignId body now) in
  deleted.1.2 = Ok200
  /\ registry deleted.1.1 = registry s
  /\ modbusClients deleted.1.1 !! assignId body now = None
  /\ opcuaVariables deleted.1.1 !! assignId body now = None
  /\ timers deleted.1.1 = timers posted
  /\ (uaFails = None ->
      timers deleted.1.1 = timers s ++ [length (objects s)]).
Proof.
  intros Hwf%wellFormed_spec Hvalid Hfresh posted deleted.
  assert (Hposted : objects posted = objects s ++ [deviceOfBody body now]
                    /\ devices posted = devices s ++ [length (objects s)]
                    /\ (uaFails = None ->
                        timers posted = timers s ++ [length (objects s)])).
  { subst posted. unfold postDevice, initializeDevice, initializeOPCUADevice.
    rewrite Hvalid. cbn [opcuaVariables].
    destruct (bool_decide _) eqn:Hthrew; cbn; [|done].
    repeat split. intros ->. apply bool_decide_eq_true in Hthrew. lia. }
  destruct Hposted as (Hobjs & Hdevs & Htimers).
  assert (Hfind : findIndex (objects posted) (devices posted) (assignId body now)
                  = Some (length (devices s))).
  { rewrite Hobjs, Hdevs.
    apply (findIndex_fresh (objects s) (devices s) (deviceOfBody body now));
      done. }
  destruct (deleteDevice posted (assignId body now)) as [[s2 resp] evs] eqn:Hdel.
  subst deleted. cbn [fst snd].
  pose proof Hdel as Hdel'. unfold deleteDevice in Hdel'. rewrite Hfind in Hdel'.
  destruct (removeDeviceVariables _ _) as [vars evs0] eqn:Hvars.
  assert (resp = Ok200 /\ objects s2 = objects posted
          /\ devices s2 = delete (length (devices s)) (devices posted)
          /\ timers s2 = timers posted) as (-> & Hobjs2 & Hdevs2 & Htimers2).
  { destruct (modbusClients posted !! assignId body now);
      by injection Hdel' as <- <- _. }
  destruct (deleteDevice_ok _ _ _ _ Hdel) as (Hc & Hv & _).
  split; [done|]. split.
  - unfold registry. rewrite Hobjs2, Hdevs2, Hobjs, Hdevs.
    replace (delete (length (devices s)) (devices s ++ [length (objects s)]))
      with (devices s).
    + by apply registry_old_entries.
    + rewrite delete_middle. by rewrite app_nil_r.
  - repeat split; try done. intros Hnone. by rewrite Htimers2, Htimers.
Qed.

Lemma post_then_delete_restores_registry_witness :
  registry
    (deleteDevice (postDevice oneDevice (sampleBody "d2" [holdingB]) "1" None).1.1
       "d2").1.1
  = registry oneDevice.
Proof.
  refine (proj1 (proj2 (post_then_delete_restores_registry oneDevice
                          (sampleBody "d2" [holdingB]) "1" None _ _ _))).
  - reflexivity.
  - reflexivity.
  - repeat constructor. discriminate.
Defined.

(** ** What no handler and no callback ever does *)

Section RunFacts.
Context {collab : Collaborators}.

Lemma step_timers (s : System) (a : Action) :
  timers s `prefix_of` timers (step s a).1.
Proof.
  destruct a as [body now uaFails|deviceId|k|a]; cbn.
  - unfold postDevice, initializeDevice, startDevicePolling.
    destruct (invalidBody body); [done|]. cbn [opcuaVariables].
    destruct (initializeOPCUADevice _ _ _) as [[vars threw] evs].
    destruct threw; cbn; [done | by apply prefix_app_r].
  - unfold deleteDevice.
    destruct (findIndex _ _ _); [|done].
    destruct (removeDeviceVariables _ _).
    by destruct (modbusClients s !! deviceId).
  - unfold tick. destruct (timers s !! k); [|done].
    by destruct (objects s !! _).
  - unfold clientEvent. by destruct (objects s !! a).
Qed.

Lemma step_objects (s : System) (a : Action) (addr : nat) (d : Device.t) :
  objects s !! addr = Some d ->
  exists d', objects (step s a).1 !! addr = Some d' /\ sameDeviceConfig d d'.
Proof.
  intros Hd. destruct a as [body now uaFails|deviceId|k|a]; cbn.
  - unfold postDevice, initializeDevice.
    destruct (invalidBody body); cbn [fst];
      [eauto using sameDeviceConfig_refl|]. cbn [opcuaVariables].
    destruct (initializeOPCUADevice _ _ _) as [[vars threw] evs].
    exists d. split; [|apply sameDeviceConfig_refl].
    destruct threw; cbn; by apply lookup_app_l_Some.
  - unfold deleteDevice. exists d. split; [|apply sameDeviceConfig_refl].
    destruct (findIndex _ _ _); [|done].
    destruct (removeDeviceVariables _ _).
    by destruct (modbusClients s !! deviceId).
  - unfold tick.
    destruct (timers s !! k) as [a0|]; [|eauto using sameDeviceConfig_refl].
    destruct (objects s !! a0) as [d0|] eqn:Hd0;
      [|eauto using sameDeviceConfig_refl]. cbn.
    destruct (decide (a0 = addr)) as [->|Hne].
    + rewrite Hd in Hd0. injection Hd0 as <-.
      eexists. split; [|apply readDeviceData_sameDeviceConfig].
      apply list_lookup_insert_eq. by eapply lookup_lt_Some.
    + exists d. split; [|apply sameDeviceConfig_refl].
      by rewrite list_lookup_insert_ne.
  - unfold clientEvent.
    destruct (objects s !! a) as [d0|] eqn:Hd0;
      [|eauto using sameDeviceConfig_refl]. cbn.
    destruct (decide (a = addr)) as [->|Hne].
    + rewrite Hd in Hd0. injection Hd0 as <-.
      eexists. split; [|apply sameDeviceConfig_setConnected].
      apply list_lookup_insert_eq. by eapply lookup_lt_Some.
    + exists d. split; [|apply sameDeviceConfig_refl].
      by rewrite list_lookup_insert_ne.
Qed.
End RunFacts.

(** X16: no route handler and no timer callback ever stops an interval:
    whatever happens to the server, the intervals that were running are
    still running, in the same order, in front of those started since. *)
Theorem intervals_are_never_cleared {collab : Collaborators}
    (s : System) (actions : list Action) :
  timers s `prefix_of` timers (run s actions).1.
Proof.
  revert s. induction actions as [|a actions IH]; intros s; cbn; [done|].
  etrans; [apply step_timers | apply IH].
Qed.

(** X17: whatever happens to the server, a device object keeps its
    configuration for ever: its id, name, type, address, port, baud rate,
    unit id and poll interval, and the names, register types, addresses
    and dataTypes of its tags; only its connected flag and the
    currentValue of its tags change, also after it is deleted. *)
Theorem device_configuration_is_immutable {collab : Collaborators}
    (s : System) (actions : list Action) (addr : nat) (d : Device.t) :
  objects s !! addr = Some d ->
  exists d', objects (run s actions).1 !! addr = Some d'
             /\ sameDeviceConfig d d'.
Proof.
  revert s d. induction actions as [|a actions IH]; intros s d Hd; cbn.
  - eauto using sameDeviceConfig_refl.
  - destruct (step_objects s a addr d Hd) as (d1 & Hd1 & H1).
    destruct (IH _ _ Hd1) as (d2 & Hd2 & H2).
    eauto using sameDeviceConfig_trans.
Qed.

Lemma device_configuration_is_immutable_witness :
  exists d', objects idPostedAgain !! 0%nat = Some d'
             /\ sameDeviceConfig (deviceOfBody (sampleBody "d1" [holdingA]) "0") d'.
Proof.
  apply (device_configuration_is_immutable
           (run initialSystem [Post (sampleBody "d1" [holdingA]) "0" None]).1
           [Delete "d1"; Post (sampleBody "d1" [holdingB]) "1" None]
           0%nat (deviceOfBody (sampleBody "d1" [holdingA]) "0")).
  reflexivity.
Defined.

(** ** The snapshot of values, in full *)

Section SnapshotMore.
Context {A V : Type}.

Lemma foldl_setProperty_lookup_None (key : A -> string) (val : A -> V)
    (l : list A) (o : gmap string V) (k : string) :
  foldl (fun o y => setProperty o (key y) (val y)) o l !! k = None
  <-> o !! k = None /\ (k = "__proto__" \/ Forall (fun y => key y <> k) l).
Proof.
  revert o. induction l as [|y l IH]; intros o; cbn.
  - split; [intros ?; split; [done | right; constructor] | by intros [? _]].
  - rewrite IH, Forall_cons. unfold setProperty.
    destruct (String.eqb_spec (key y) "__proto__") as [Hproto|Hproto].
    + destruct (decide (key y = k)) as [<-|Hne]; [tauto|]. tauto.
    + destruct (decide (key y = k)) as [<-|Hne].
      * rewrite lookup_insert_eq. split; [by intros [? _]|].
        intros [_ [?|[? _]]]; done.
      * rewrite lookup_insert_ne by done. tauto.
Qed.

Lemma foldl_setProperty_lookup_Some (key : A -> string) (val : A -> V)
    (l : list A) (o : gmap string V) (k : string) (v : V) :
  foldl (fun o y => setProperty o (key y) (val y)) o l !! k = Some v ->
  o !! k = Some v \/ exists y, y ∈ l /\ key y = k /\ val y = v.
Proof.
  revert o. induction l as [|y l IH]; intros o; cbn; [by left|].
  intros [Ho|(y' & Hy' & ? & ?)]%IH.
  - unfold setProperty in Ho.
    destruct (String.eqb (key y) "__proto__"); [by left|].
    destruct (decide (key y = k)) as [<-|Hne].
    + rewrite lookup_insert_eq in Ho. injection Ho as <-.
      right. exists y. split; [apply list_elem_of_here | done].
    + rewrite lookup_insert_ne in Ho by done. by left.
  - right. exists y'. split; [by apply list_elem_of_further | done].
Qed.
End SnapshotMore.

(** X18: the snapshot has an entry for an id exactly when a device of the
    registry has that id and the id is not __proto__ (on the object
    literal that key names the prototype, and assigning to it adds no
    entry). *)
Theorem snapshot_has_the_registered_ids {collab : Collaborators}
    (s : System) (id : string) :
  getValues s !! id = None
  <-> id = "__proto__" \/ Forall (fun d => Device.id d <> id) (registry s).
Proof.
  unfold getValues. rewrite foldl_setProperty_lookup_None.
  rewrite lookup_empty. tauto.
Qed.

(** X19: every value the snapshot reports comes from a tag of a
    registered device: it stands under that device's id and name and the
    tag's name, and it is the tag's currentValue when that is truthy and
    the number 0 otherwise; the snapshot never holds undefined, false or
    NaN. *)
Theorem snapshot_is_sound {collab : Collaborators}
    (s : System) (id name tagName : string) (values : gmap string JsValue)
    (v : JsValue) :
  getValues s !! id = Some (name, values) ->
  values !! tagName = Some v ->
  (exists d tag,
      d ∈ registry s /\ tag ∈ Device.tags d
      /\ Device.id d = id /\ Device.name d = name /\ Tag.name tag = tagName
      /\ v = (if Js.truthy (Tag.currentValue tag)
              then Tag.currentValue tag else JNum 0))
  /\ (v = JNum 0 \/ Js.truthy v = true).
Proof.
  intros Hid Htag. unfold getValues in Hid.
  apply foldl_setProperty_lookup_Some in Hid as [Hid|(d & Hd & Hdid & Hval)];
    [by rewrite lookup_empty in Hid|].
  injection Hval as Hname Hvalues. subst values.
  unfold tagValues in Htag.
  apply foldl_setProperty_lookup_Some in Htag as [Htag|(tag & Ht & Htn & Hv)];
    [by rewrite lookup_empty in Htag|].
  unfold reportedValue, Js.orElse in Hv. split.
  - by exists d, tag.
  - subst v. destruct (Js.truthy (Tag.currentValue tag)) eqn:Htruthy; auto.
Qed.

Lemma snapshot_is_sound_witness :
  exists d tag,
    d ∈ registry coilOff /\ tag ∈ Device.tags d
    /\ Device.id d = "d1" /\ Device.name d = "plc" /\ Tag.name tag = "run"
    /\ JNum 0 = (if Js.truthy (Tag.currentValue tag)
                 then Tag.currentValue tag else JNum 0).
Proof.
  refine (proj1 (snapshot_is_sound coilOff "d1" "plc" "run"
                   (tagValues
                      [Tag.setCurrentValue coilAsBoolean (JBool false)])
                   (JNum 0) _ _)); reflexivity.
Defined.

(** ** main *)

Section MainFacts.
Context {collab : Collaborators}.

Lemma registry_of_loaded (pre l : list Device.t) :
  omap (fun a => (pre ++ l) !! a) (seq (length pre) (length l)) = l.
Proof.
  revert pre. induction l as [|d l IH]; intros pre; cbn; [done|].
  rewrite lookup_app_r, Nat.sub_diag by done. cbn. f_equal.
  specialize (IH (pre ++ [d])). rewrite length_app, <- app_assoc in IH.
  cbn in IH. by rewrite Nat.add_1_r in IH.
Qed.

Lemma startEach_timers (objs : list Device.t) (addrs timers : list nat) :
  Forall (fun a => a < length objs) addrs ->
  (startEach objs addrs timers).1 = timers ++ addrs.
Proof.
  revert timers. induction addrs as [|a addrs IH]; intros timers Hwf; cbn.
  - by rewrite app_nil_r.
  - apply Forall_cons in Hwf as [Ha Hwf].
    destruct (lookup_lt_is_Some_2 objs a Ha) as [d ->]. cbn.
    rewrite IH by done. by rewrite <- app_assoc.
Qed.

(** While nothing throws, every device gone through has its client. *)
Lemma initializeAll_clients (i : nat) (devs : list Device.t)
    (vars : gmap string (JsMap.t string)) (clients : gmap string Client) :
  (initializeAll None i devs vars clients).1.2 = false
  /\ forall id,
       (initializeAll None i devs vars clients).1.1.2 !! id
       = if bool_decide (Exists (fun d => Device.id d = id) devs)
         then Some newClient else clients !! id.
Proof.
  revert i vars clients. induction devs as [|d devs IH]; intros i vars clients.
  - split; [done|]. intros id. cbn [initializeAll fst snd].
    case_bool_decide as H; [by apply Exists_nil in H | done].
  - cbn. unfold initializeOPCUADevice. cbn.
    rewrite bool_decide_eq_false_2 by lia.
    specialize (IH (S i) (foldl (registerVariable (Device.id d)) vars
                            (Device.tags d))
                  (initializeModbusClient d clients)).
    destruct (initializeAll None (S i) devs _ _) as [[[vars'' clients'] threw'] evs'].
    cbn in *. destruct IH as [-> IH]. split; [done|]. intros id.
    rewrite IH. unfold initializeModbusClient.
    destruct (decide (Device.id d = id)) as [Heq|Hne].
    + rewrite (bool_decide_eq_true_2 (Exists _ (d :: devs)))
        by (by apply Exists_cons_hd).
      rewrite Heq, lookup_insert_eq. by case_bool_decide.
    + rewrite lookup_insert_ne by done.
      rewrite (bool_decide_ext (Exists _ (d :: devs))
                 (Exists (fun d => Device.id d = id) devs)); [done|].
      rewrite Exists_cons. tauto.
Qed.

(** The [forEach] throws when [addVariable] does at a tag that exists. *)
Lemma initializeAll_throws (i j k : nat) (devs : list Device.t) (d : Device.t)
    (vars : gmap string (JsMap.t string)) (clients : gmap string Client) :
  devs !! j = Some d ->
  k < length (Device.tags d) ->
  (initializeAll (Some (i + j, k)) i devs vars clients).1.2 = true.
Proof.
  revert i j vars clients. induction devs as [|d0 devs IH];
    intros i j vars clients Hj Hk; [done|].
  cbn. destruct j as [|j].
  - injection Hj as ->. rewrite Nat.add_0_r, Nat.eqb_refl.
    unfold initializeOPCUADevice. cbn.
    rewrite bool_decide_eq_true_2; [done|]. rewrite length_take. lia.
  - cbn in Hj. destruct (Nat.eqb_spec (i + S j) i) as [|_]; [lia|].
    unfold initializeOPCUADevice. cbn. rewrite bool_decide_eq_false_2 by lia.
    specialize (IH (S i) j (foldl (registerVariable (Device.id d0)) vars
                              (Device.tags d0))
                  (initializeModbusClient d0 clients) Hj Hk).
    replace (S i + j) with (i + S j) in IH by lia.
    by destruct (initializeAll _ (S i) devs _ _) as [[[? ?] ?] ?].
Qed.

Lemma main_registry (config : list Device.t) (su : Startup) :
  registry (main config su).1 = config
  /\ objects (main config su).1 = config.
Proof.
  unfold main, startAllDevicesPolling.
  destruct (su_initialize su); cbn;
    [|split; [apply (registry_of_loaded [] config) | done]].
  destruct (initializeAll _ _ _ _ _) as [[[vars clients] threw] evs].
  destruct threw; [|destruct (su_start su)]; cbn;
    (split; [apply (registry_of_loaded [] config) | done]).
Qed.
End MainFacts.

(** X20: when the start of the server goes through (initialize and start
    resolve, the address space takes every variable), the registry is
    the list of devices loaded from the file, every loaded device's id
    has a fresh client, and one interval per device is running, in the
    order of the file. *)
Theorem main_starts_every_device {collab : Collaborators}
    (config : list Device.t) (su : Startup) :
  su_initialize su = true ->
  su_uaFails su = None ->
  su_start su = true ->
  registry (main config su).1 = config
  /\ timers (main config su).1 = seq 0 (length config)
  /\ (forall d, d ∈ config ->
        modbusClients (main config su).1 !! Device.id d = Some newClient)
  /\ wellFormed (main config su).1 = true.
Proof.
  intros Hinit Hua Hstart.
  split; [apply main_registry|].
  unfold main, startAllDevicesPolling. rewrite Hinit, Hua, Hstart. cbn [negb].
  destruct (initializeAll_clients 0 config ∅ ∅) as [Hthrew Hclients].
  destruct (initializeAll None 0 config ∅ ∅) as [[[vars clients] threw] evs].
  cbn in Hthrew, Hclients. subst threw.
  assert (Hwf : Forall (fun a => a < length config) (seq 0 (length config))).
  { apply Forall_forall. intros a Ha%elem_of_seq. lia. }
  split; [cbn; by rewrite startEach_timers|]. split.
  - intros d Hd. cbn. rewrite Hclients. rewrite bool_decide_eq_true_2; [done|].
    apply Exists_exists. eauto.
  - apply wellFormed_spec. by cbn.
Qed.

Lemma main_starts_every_device_witness :
  timers
    (main (collab := scripted true [])
       [sampleDevice "d1" false [holdingA]; sampleDevice "d2" true [holdingB]]
       (mkStartup true None true)).1
  = [0; 1].
Proof.
  refine (proj1 (proj2
    (main_starts_every_device (collab := scripted true [])
       [sampleDevice "d1" false [holdingA]; sampleDevice "d2" true [holdingB]]
       (mkStartup true None true) _ _ _))); reflexivity.
Defined.

(** X21: when the start of the server does not go through (initialize or
    start rejects, or the address space throws at a variable of a loaded
    device), the devices of the file are in the registry, but no interval
    is started, so none of them is polled. *)
Theorem main_failure_polls_nothing {collab : Collaborators}
    (config : list Device.t) (su : Startup) :
  (su_initialize su = false
   \/ su_start su = false
   \/ exists j k d, su_uaFails su = Some (j, k) /\ config !! j = Some d
                    /\ k < length (Device.tags d)) ->
  registry (main config su).1 = config
  /\ timers (main config su).1 = []
  /\ forall k, tick (main config su).1 k = ((main config su).1, []).
Proof.
  intros Hfail. split; [apply main_registry|].
  assert (Htimers : timers (main config su).1 = []).
  { unfold main. destruct (su_initialize su); cbn; [|done].
    destruct Hfail as [?|[Hstart|(j & k & d & Hua & Hd & Hk)]]; [done| |].
    - destruct (initializeAll _ _ _ _ _) as [[[vars clients] threw] evs].
      destruct threw; [done|]. by rewrite Hstart.
    - rewrite Hua. pose proof (initializeAll_throws 0 j k config d ∅ ∅ Hd Hk) as H.
      cbn in H. destruct (initializeAll _ _ _ _ _) as [[[vars clients] threw] evs].
      cbn in H. by subst threw. }
  split; [done|]. intros k. unfold tick. by rewrite Htimers.
Qed.

Lemma main_failure_polls_nothing_witness :
  timers
    (main (collab := scripted true [])
       [sampleDevice "d1" false [holdingA]; sampleDevice "d2" true [holdingB]]
       (mkStartup true (Some (1%nat, 0%nat)) true)).1
  = [].
Proof.
  refine (proj1 (proj2
    (main_failure_polls_nothing (collab := scripted true [])
       [sampleDevice "d1" false [holdingA]; sampleDevice "d2" true [holdingB]]
       (mkStartup true (Some (1%nat, 0%nat)) true) _))).
  right. right. exists 1%nat, 0%nat, (sampleDevice "d2" true [holdingB]).
  repeat split. cbn. lia.
Defined.

(** ** The server with two fixed devices *)

(** X22: the server with the fixed devices decodes as the multi-device
    server does.  On a reply of at least two elements its TCP read leaves
    in currentValue what [convertModbusData] gives for the dataType float,
    and disconnects and closes the client when that throws; on a reply of
    at least one element its RTU read leaves in rtuValue what
    [convertModbusData] gives for uint16. *)
Theorem fixed_reads_decode_like_convertModbusData {collab : Collaborators}
    (st : Fixed.State) (data : list RawItem) (c' : Client) :
  (Fixed.isModbusConnected st = true ->
   readHoldingRegisters (Fixed.modbusClient st) Fixed.TAG_ADDRESS 2
   = (Resolved (Some data), c') ->
   2 <= length data ->
   Fixed.readModbusTCPData st
   = match convertModbusData data "float" with
     | Normal value => Fixed.setCurrentValue (Fixed.withTCP st c' true) value
     | Thrown _ => Fixed.withTCP st (close c') false
     end)
  /\ (Fixed.isModbusRTUConnected st = true ->
      readHoldingRegisters (Fixed.modbusRTUClient st) Fixed.RTU_REGISTER_ADDRESS 1
      = (Resolved (Some data), c') ->
      1 <= length data ->
      convertModbusData data "uint16"
      = Normal (Fixed.rtuValue (Fixed.readModbusRTUData st))
      /\ Fixed.readModbusRTUData st
         = Fixed.setRtuValue (Fixed.withRTU st c' true)
             (Fixed.rtuValue (Fixed.readModbusRTUData st))).
Proof.
  split.
  - intros Hconn Hread Hlen.
    unfold Fixed.readModbusTCPData, Fixed.readTCP. rewrite Hconn, Hread.
    destruct data as [|x [|y data]]; cbn in Hlen; [lia..|].
    unfold convertModbusData. cbn [String.eqb Ascii.eqb Bool.eqb].
    cbn [fst snd length Nat.leb lookup list_lookup].
    destruct (Buffer.writeUInt16BE (Buffer.alloc 4) (Some x) 0)
      as [buffer|]; [|done].
    by destruct (Buffer.writeUInt16BE buffer (Some y) 2).
  - intros Hconn Hread Hlen.
    unfold Fixed.readModbusRTUData, Fixed.readRTU. rewrite Hconn, Hread.
    destruct data as [|x data]; cbn in Hlen; [lia|]. by cbn.
Qed.

Lemma fixed_reads_decode_like_convertModbusData_witness :
  Fixed.currentValue
    (Fixed.readModbusTCPData
       (fixedConnected [Resolved (Some [Word 0x4248; Word 0])] (JNum 0)))
  = JFloat 0x42480000.
Proof.
  destruct (fixed_reads_decode_like_convertModbusData
              (fixedConnected [Resolved (Some [Word 0x4248; Word 0])] (JNum 0))
              [Word 0x4248; Word 0] 1%nat) as [Htcp _].
  rewrite Htcp; [reflexivity | reflexivity | reflexivity | cbn; lia].
Defined.

(** X23: the server with the fixed devices ignores a reply that is too
    short: a TCP reply of fewer than two elements, an RTU reply of none,
    or a reply without data, leaves currentValue and rtuValue as they
    were and the connection up. *)
Theorem fixed_reads_ignore_short_replies {collab : Collaborators}
    (st : Fixed.State) (reply : option (list RawItem)) (c' : Client) :
  (Fixed.isModbusConnected st = true ->
   readHoldingRegisters (Fixed.modbusClient st) Fixed.TAG_ADDRESS 2
   = (Resolved reply, c') ->
   length (default [] reply) < 2 ->
   Fixed.readModbusTCPData st = Fixed.withTCP st c' true)
  /\ (Fixed.isModbusRTUConnected st = true ->
      readHoldingRegisters (Fixed.modbusRTUClient st) Fixed.RTU_REGISTER_ADDRESS 1
      = (Resolved reply, c') ->
      length (default [] reply) < 1 ->
      Fixed.readModbusRTUData st = Fixed.withRTU st c' true).
Proof.
  split; intros Hconn Hread Hlen.
  - unfold Fixed.readModbusTCPData, Fixed.readTCP. rewrite Hconn, Hread. cbn [fst snd].
    destruct reply as [[|x [|y data]]|]; cbn in Hlen; try lia; by cbn.
  - unfold Fixed.readModbusRTUData, Fixed.readRTU. rewrite Hconn, Hread. cbn [fst snd].
    destruct reply as [[|x data]|]; cbn in Hlen; try lia; by cbn.
Qed.

Lemma fixed_reads_ignore_short_replies_witness :
  Fixed.currentValue
    (Fixed.readModbusTCPData
       (fixedConnected [Resolved (Some [Word 7])] (JNum 3)))
  = JNum 3.
Proof.
  destruct (fixed_reads_ignore_short_replies
              (fixedConnected [Resolved (Some [Word 7])] (JNum 3))
              (Some [Word 7]) 1%nat) as [Htcp _].
  rewrite Htcp; [reflexivity | reflexivity | reflexivity | cbn; lia].
Defined.

(** ** Order of the reads, and retraction *)

Section OrderFacts.
Context {collab : Collaborators}.

(** The one read of an iteration, if the tag can be read at all. *)
Lemma pollTag_all_reads id vars (c : Client) (tag : Tag.t) :
  List.filter isRead (ps_events (pollTag id vars c tag))
  = if isReadable tag
    then [ERead id
            (if String.eqb (Tag.registerType tag) "holding" then HoldingRegisters
             else if String.eqb (Tag.registerType tag) "input" then InputRegisters
             else if String.eqb (Tag.registerType tag) "coil" then Coils
             else DiscreteInputs)
            (Tag.address tag)
            (if isRegisterTag tag then getRegisterCount (Tag.dataType tag)
             else 1%Z)]
    else [].
Proof.
  unfold pollTag, issueRead, isReadable, isRegisterTag, isBitTag.
  destruct (String.eqb (Tag.registerType tag) "holding");
    [|destruct (String.eqb (Tag.registerType tag) "input");
      [|destruct (String.eqb (Tag.registerType tag) "coil");
        [|destruct (String.eqb (Tag.registerType tag) "discrete")]]];
    cbn [orb]; try done;
    match goal with
    | |- context [match ?r with (_, _) => _ end] =>
        destruct r as [[err|[data|]] c']
    end; cbn; try done;
    (destruct (convertModbusData _ _); cbn; try done;
     destruct (vars ≫= _); [destruct (variantThrows _ _)|]; done).
Qed.

Lemma pollTags_all_reads id vars (c : Client) conn (tags : list Tag.t) :
  Forall2
    (fun tag ev =>
       exists kind n,
         ev = ERead id kind (Tag.address tag) n
         /\ (isRegisterTag tag = true -> n = getRegisterCount (Tag.dataType tag))
         /\ (isRegisterTag tag = false -> n = 1%Z))
    (List.filter isReadable tags)
    (List.filter isRead (pl_events (pollTags id vars c conn tags))).
Proof.
  revert c conn. induction tags as [|tag tags IH]; intros c conn; cbn.
  - constructor.
  - rewrite List.filter_app, pollTag_all_reads.
    destruct (isReadable tag); cbn; [|apply IH].
    constructor; [|apply IH]. do 2 eexists. split; [done|].
    by destruct (isRegisterTag tag).
Qed.

Lemma JsMap_get_elem_of {V} (m : JsMap.t V) (k : string) (v : V) :
  JsMap.get m k = Some v -> (k, v) ∈ m.
Proof.
  induction m as [|[k' v'] m IH]; cbn; [done|].
  destruct (String.eqb_spec k' k) as [->|_].
  - intros [= ->]. apply list_elem_of_here.
  - intros H. by apply list_elem_of_further, IH.
Qed.
End OrderFacts.

(** X25: removing a device that was added with success disposes the
    OPC UA variable of each of its tags: the DELETE of its id is answered
    with success, and its log has the disposal of s=<id>_<tag name> for
    every tag of the device. *)
Theorem delete_disposes_every_variable {collab : Collaborators}
    (s s' : System) (body : Body.t) (now : string) (uaFails : option nat)
    (evs : list Event) (tag : Tag.t) :
  postDevice s body now uaFails = (s', Ok200, evs) ->
  tag ∈ Device.tags (deviceOfBody body now) ->
  (deleteDevice s' (assignId body now)).1.2 = Ok200
  /\ EDispose (nodeIdOf (assignId body now) (Tag.name tag))
     ∈ (deleteDevice s' (assignId body now)).2.
Proof.
  intros Hpost Htag.
  destruct (post_success_pollable_facts s s' body now uaFails evs Hpost)
    as (Hobj & Hdevs & Hvars).
  destruct (Hvars tag Htag) as (variables & Hv & Hget).
  assert (Hfound : findIndex (objects s') (devices s') (assignId body now)
                   <> None).
  { intros Hnone%findIndex_None. rewrite Hdevs, omap_app in Hnone.
    apply Forall_app in Hnone as [_ Hnone]. cbn in Hnone.
    rewrite Hobj in Hnone. cbn in Hnone. by apply Forall_cons in Hnone as [? _]. }
  unfold deleteDevice, removeDeviceVariables.
  destruct (findIndex _ _ _) as [index|]; [|done].
  cbn in Hv. unfold JsMap.t in *. rewrite Hv.
  destruct (modbusClients s' !! assignId body now); cbn; (split; [done|]);
    apply list_elem_of_further, elem_of_app; left;
    apply (list_elem_of_fmap_2 (fun kv : string * string => EDispose kv.2)
             _ (Tag.name tag, nodeIdOf (assignId body now) (Tag.name tag)));
    by apply JsMap_get_elem_of.
Qed.

Lemma delete_disposes_every_variable_witness :
  EDispose "s=d2_b"
  ∈ (deleteDevice
       (postDevice oneDevice (sampleBody "d2" [holdingA; holdingB]) "1" None).1.1
       "d2").2.
Proof.
  refine (proj2 (delete_disposes_every_variable oneDevice
            (postDevice oneDevice (sampleBody "d2" [holdingA; holdingB]) "1"
               None).1.1
            (sampleBody "d2" [holdingA; holdingB]) "1" None
            (postDevice oneDevice (sampleBody "d2" [holdingA; holdingB]) "1"
               None).2 holdingB _ _)).
  - reflexivity.
  - apply list_elem_of_further, list_elem_of_here.
Defined.

(** ** The loop when a close may never settle *)

Section AwaitedFacts.
Context {collab : Collaborators}.
Variable closeSettles : Client -> bool.
Implicit Types (id : string) (vars : option (JsMap.t string)).
Implicit Types (c : Client) (tag : Tag.t) (tags : list Tag.t).

(** An iteration assigns and logs the same, whether its close settles or
    not. *)
Lemma pollTagAwait_as_pollTag id vars c tag :
  ps_tag (pollTagAwait closeSettles id vars c tag).1
  = ps_tag (pollTag id vars c tag)
  /\ ps_caught (pollTagAwait closeSettles id vars c tag).1
     = ps_caught (pollTag id vars c tag)
  /\ ps_events (pollTagAwait closeSettles id vars c tag).1
     = ps_events (pollTag id vars c tag).
Proof.
  unfold pollTagAwait, pollTag, catchBlock.
  destruct (issueRead c tag) as [[[kind n] [[err|[data|]] c']]|]; cbn;
    try done.
  - by destruct (closeSettles c').
  - destruct (convertModbusData data (Tag.dataType tag)) as [value|]; cbn;
      [|by destruct (closeSettles c')].
    destruct (vars ≫= _); [destruct (variantThrows _ _)|]; cbn; try done.
    by destruct (closeSettles c').
Qed.

(** A cycle gets stuck only in a [catch] block. *)
Lemma pollTagAwait_stuck id vars c tag :
  (pollTagAwait closeSettles id vars c tag).2 = true ->
  ps_caught (pollTagAwait closeSettles id vars c tag).1 = true.
Proof.
  unfold pollTagAwait, catchBlock.
  destruct (issueRead c tag) as [[[kind n] [[err|[data|]] c']]|]; cbn;
    try done.
  - by destruct (closeSettles c').
  - destruct (convertModbusData data (Tag.dataType tag)) as [value|]; cbn;
      [|by destruct (closeSettles c')].
    destruct (vars ≫= _); [destruct (variantThrows _ _)|]; cbn; try done.
    by destruct (closeSettles c').
Qed.

Lemma pollTagAwait_rejected id vars c tag kind n err c' :
  issueRead c tag = Some (kind, n, (Rejected err, c')) ->
  pollTagAwait closeSettles id vars c tag
  = catchBlock closeSettles id tag c' [ERead id kind (Tag.address tag) n].
Proof. intros H. unfold pollTagAwait. by rewrite H. Qed.


(** The loop over a concatenation, when it gets through the first part. *)
Lemma pollTagsAwait_app id vars c conn tags1 tags2 :
  (pollTagsAwait closeSettles id vars c conn tags1).2 = false ->
  pollTagsAwait closeSettles id vars c conn (tags1 ++ tags2)
  = let r1 := (pollTagsAwait closeSettles id vars c conn tags1).1 in
    let r2 := pollTagsAwait closeSettles id vars (pl_client r1)
                (pl_connected r1) tags2 in
    (mkPollLoop (pl_tags r1 ++ pl_tags r2.1) (pl_client r2.1)
       (pl_connected r2.1) (pl_events r1 ++ pl_events r2.1),
     r2.2).
Proof.
  revert c conn. induction tags1 as [|tag tags1 IH]; intros c conn Hthrough.
  - cbn. by destruct (pollTagsAwait closeSettles id vars c conn tags2) as [[] ?].
  - cbn [app pollTagsAwait] in *.
    destruct (pollTagAwait closeSettles id vars c tag) as [s stuck].
    cbn [fst snd] in *. destruct stuck; [done|].
    rewrite IH by done. cbn. by rewrite app_assoc.
Qed.

Lemma pollTagsAwait_length id vars c conn tags :
  length (pl_tags (pollTagsAwait closeSettles id vars c conn tags).1)
  = length tags.
Proof.
  revert c conn. induction tags as [|tag tags IH]; intros c conn; cbn; [done|].
  destruct (pollTagAwait closeSettles id vars c tag) as [s []]; cbn;
    [done | by rewrite IH].
Qed.

Lemma pollTagsAwait_stays_disconnected id vars c tags :
  pl_connected (pollTagsAwait closeSettles id vars c false tags).1 = false.
Proof.
  revert c. induction tags as [|tag tags IH]; intros c; cbn; [done|].
  destruct (pollTagAwait closeSettles id vars c tag) as [s []]; cbn.
  - by destruct (ps_caught s).
  - destruct (ps_caught s); apply IH.
Qed.

(** The first tag that can be read is read, whatever the client says. *)
Lemma pollTagsAwait_first_read id vars c conn tags (next : Tag.t) :
  head (List.filter isReadable tags) = Some next ->
  exists kind n,
    head (List.filter isRead
            (pl_events (pollTagsAwait closeSettles id vars c conn tags).1))
    = Some (ERead id kind (Tag.address next) n).
Proof.
  revert c conn. induction tags as [|tag tags IH]; intros c conn Hnext;
    [done|].
  cbn in Hnext. cbn [pollTagsAwait].
  pose proof (pollTagAwait_as_pollTag id vars c tag) as (_ & Hcaught & Hevs).
  pose proof (pollTag_all_reads id vars c tag) as Hreads.
  pose proof (pollTagAwait_stuck id vars c tag) as Hstuck.
  destruct (pollTagAwait closeSettles id vars c tag) as [s stuck].
  cbn [fst snd] in *. rewrite <- Hevs in Hreads.
  destruct (isReadable tag) eqn:Hreadable.
  - injection Hnext as <-.
    destruct stuck; cbn; rewrite ?List.filter_app, Hreads; cbn; eauto.
  - destruct stuck.
    + specialize (Hstuck eq_refl). rewrite Hcaught in Hstuck.
      rewrite pollTag_caught in Hstuck.
      assert (Hnone : ps_events (pollTag id vars c tag) = []).
      { unfold pollTag, issueRead. unfold isReadable, isRegisterTag, isBitTag
          in Hreadable.
        apply orb_false_iff in Hreadable
          as [[-> ->]%orb_false_iff [-> ->]%orb_false_iff]. done. }
      by rewrite Hnone in Hstuck.
    + cbn. rewrite List.filter_app, Hreads. cbn. by apply IH.
Qed.


(** On a client that rejects every read, the loop assigns no tag. *)
Lemma pollTagsAwait_closed (closed : Client -> Prop) id vars c conn tags :
  rejectsReads closed ->
  closed c ->
  pl_tags (pollTagsAwait closeSettles id vars c conn tags).1 = tags.
Proof.
  intros (Hclose & Hh & Hi & Hc & Hd). revert c conn.
  induction tags as [|tag tags IH]; intros c conn Hclosed; cbn; [done|].
  assert (Hstep : exists s stuck,
             pollTagAwait closeSettles id vars c tag = (s, stuck)
             /\ ps_tag s = tag /\ closed (ps_client s)).
  { unfold pollTagAwait, issueRead, catchBlock.
    destruct (String.eqb (Tag.registerType tag) "holding").
    { destruct (Hh c (Tag.address tag) (getRegisterCount (Tag.dataType tag))
                  Hclosed) as (err & c' & -> & Hc').
      destruct (closeSettles c'); do 2 eexists; repeat split; cbn; auto. }
    destruct (String.eqb (Tag.registerType tag) "input").
    { destruct (Hi c (Tag.address tag) (getRegisterCount (Tag.dataType tag))
                  Hclosed) as (err & c' & -> & Hc').
      destruct (closeSettles c'); do 2 eexists; repeat split; cbn; auto. }
    destruct (String.eqb (Tag.registerType tag) "coil").
    { destruct (Hc c (Tag.address tag) 1%Z Hclosed) as (err & c' & -> & Hc').
      destruct (closeSettles c'); do 2 eexists; repeat split; cbn; auto. }
    destruct (String.eqb (Tag.registerType tag) "discrete").
    { destruct (Hd c (Tag.address tag) 1%Z Hclosed) as (err & c' & -> & Hc').
      destruct (closeSettles c'); do 2 eexists; repeat split; cbn; auto. }
    do 2 eexists. repeat split; cbn; auto. }
  destruct Hstep as (s & stuck & -> & Htag & Hclient). cbn.
  destruct stuck; cbn; rewrite Htag; [done|]. by rewrite IH.
Qed.
End AwaitedFacts.

(** The TCP-like client, once it is not open, rejects every read and
    stays so. *)
Lemma tcpLike_rejectsReads (script : list ReadReply) :
  rejectsReads (collab := tcpLike script) (fun c => c.1 = false).
Proof.
  repeat split; try done;
    intros [[] k] a n Hclosed; try done; cbn; by do 2 eexists.
Qed.

(** C2, as the code has it: when the read of the N-th tag is rejected in
    a poll cycle, the device is marked disconnected and the close of its
    client is started; the tags before the N-th keep the values the cycle
    gave them and the N-th keeps its value.  The cycle is not aborted:
    when the close settles, the loop goes on with the closed client, and
    the next tag with a known register type is read; the cycle stops only
    where a close never settles.  The tags after the N-th keep the values
    they had before the cycle, given that the closed client rejects every
    read (a cycle stuck in the close of the N-th tag touches none of
    them). *)
Theorem read_failure_disconnects_and_goes_on {collab : Collaborators}
    (closeSettles : Client -> bool)
    (mc : gmap string Client) (ua : gmap string (JsMap.t string))
    (c c' : Client) (d : Device.t) (pre post : list Tag.t) (tag : Tag.t)
    (kind : ReadKind) (n : Z) (err : string) :
  Device.tags d = pre ++ tag :: post ->
  (pollTagsAwait closeSettles (Device.id d) (ua !! Device.id d) c
     (Device.connected d) pre).2 = false ->
  issueRead
    (pl_client (pollTagsAwait closeSettles (Device.id d) (ua !! Device.id d)
                  c (Device.connected d) pre).1) tag
  = Some (kind, n, (Rejected err, c')) ->
  let before := (pollTagsAwait closeSettles (Device.id d) (ua !! Device.id d)
                   c (Device.connected d) pre).1 in
  let after := pollTagsAwait closeSettles (Device.id d) (ua !! Device.id d)
                 (close c') false post in
  let r := readLoopAwait closeSettles mc ua c d in
  Device.connected (rr_device r.1) = false
  /\ take (length pre) (Device.tags (rr_device r.1)) = pl_tags before
  /\ Device.tags (rr_device r.1) !! length pre = Some tag
  /\ rr_events r.1
     = pl_events before
       ++ [ERead (Device.id d) kind (Tag.address tag) n; EClose (Device.id d)]
       ++ (if closeSettles c' then pl_events after.1 else [])
  /\ r.2 = (if closeSettles c' then after.2 else true)
  /\ (closeSettles c' = true ->
      forall next : Tag.t,
        head (List.filter isReadable post) = Some next ->
        exists kind' n',
          head (List.filter isRead (pl_events after.1))
          = Some (ERead (Device.id d) kind' (Tag.address next) n'))
  /\ (forall closed : Client -> Prop,
        rejectsReads closed ->
        (closeSettles c' = true -> closed (close c')) ->
        drop (S (length pre)) (Device.tags (rr_device r.1)) = post).
Proof.
  intros Htags Hthrough Hread before after r. subst r. unfold readLoopAwait.
  cbn [fst snd rr_device rr_events Device.setTags Device.setConnected
       Device.connected Device.tags].
  rewrite Htags, (pollTagsAwait_app _ _ _ _ _ _ _ Hthrough).
  fold before. cbn [fst snd pl_tags pl_events pl_connected pollTagsAwait].
  rewrite (pollTagAwait_rejected _ _ _ _ _ _ _ _ _ Hread).
  assert (Hlen : length (pl_tags before) = length pre)
    by apply pollTagsAwait_length.
  unfold catchBlock. destruct (closeSettles c') eqn:Hsettles;
    cbn [fst snd ps_tag ps_client ps_caught ps_events pl_tags pl_events
         pl_connected]; fold after.
  - split; [apply pollTagsAwait_stays_disconnected|].
    split; [by rewrite <- Hlen, take_app_length|].
    split; [by rewrite <- Hlen, list_lookup_middle|].
    split; [done|]. split; [done|].
    split; [intros _ next Hnext; by apply pollTagsAwait_first_read|].
    intros closed Hrejects Hclosed.
    replace (S (length pre)) with (length (pl_tags before) + 1) by lia.
    rewrite drop_app_add. cbn [drop].
    unfold after. by apply (pollTagsAwait_closed _ closed); [|apply Hclosed].
  - split; [done|].
    split; [by rewrite <- Hlen, take_app_length|].
    split; [by rewrite <- Hlen, list_lookup_middle|].
    split; [done|]. split; [done|]. split; [done|].
    intros closed _ _.
    replace (S (length pre)) with (length (pl_tags before) + 1) by lia.
    by rewrite drop_app_add.
Qed.

Lemma read_failure_disconnects_and_goes_on_witness :
  Device.connected
    (rr_device
       (readLoopAwait (collab := tcpLike []) tcpCloseSettles ∅ ∅ (true, 0%nat)
          (sampleDevice "d1" true [holdingA; holdingB; holdingC])).1)
  = false
  /\ drop 1
       (Device.tags
          (rr_device
             (readLoopAwait (collab := tcpLike []) tcpCloseSettles ∅ ∅
                (true, 0%nat)
                (sampleDevice "d1" true [holdingA; holdingB; holdingC])).1))
     = [holdingB; holdingC].
Proof.
  destruct (read_failure_disconnects_and_goes_on (collab := tcpLike [])
              tcpCloseSettles ∅ ∅ (true, 0%nat) (true, 1%nat)
              (sampleDevice "d1" true [holdingA; holdingB; holdingC])
              [] [holdingB; holdingC] holdingA HoldingRegisters 1%Z
              "Timed out" eq_refl eq_refl eq_refl)
    as (Hconn & _ & _ & _ & _ & _ & Hafter).
  split; [exact Hconn|].
  apply (Hafter (fun c => c.1 = false)); [apply tcpLike_rejectsReads | done].
Defined.

(** C2 fails: with a client like that of modbus-serial over TCP, the
    read of the first of three tags times out; the cycle closes the
    client and, instead of stopping, issues the read of the second tag,
    which the closed client rejects; the close that follows never settles,
    and the third tag is never read. *)
Lemma reads_go_on_after_a_failure :
  List.filter isRead
    (rr_events
       (readLoopAwait (collab := tcpLike []) tcpCloseSettles ∅ ∅ (true, 0%nat)
          (sampleDevice "d1" true [holdingA; holdingB; holdingC])).1)
  = [ERead "d1" HoldingRegisters 5 1; ERead "d1" HoldingRegisters 6 1]
  /\ (readLoopAwait (collab := tcpLike []) tcpCloseSettles ∅ ∅ (true, 0%nat)
        (sampleDevice "d1" true [holdingA; holdingB; holdingC])).2 = true
  /\ Tag.currentValue
       <$> Device.tags
             (rr_device
                (readLoopAwait (collab := tcpLike []) tcpCloseSettles ∅ ∅
                   (true, 0%nat)
                   (sampleDevice "d1" true [holdingA; holdingB; holdingC])).1)
     = [JUndefined; JUndefined; JUndefined].
Proof. repeat split; by vm_compute. Qed.

